(** * spine-phaser: loader protocol, bounds providers and coordinate helpers

    A shallow embedding of [src/dist/keys.js] (the [SpinePlugin] scene
    plugin with its [SpineSkeletonDataFile] and [SpineAtlasFile] load jobs)
    and of [src/dist/SpineGameObject.js] (the two bounds providers, the
    coordinate helpers and [updatePose]).

    JavaScript numbers are IEEE 754 binary64 values, so they are embedded as
    Rocq's primitive [float]; strings are [string]s whose characters stand
    for code units below 256; the engine's caches are finite maps keyed by
    strings. *)

From stdpp Require Import base option list gmap strings.
From Stdlib Require Import ZArith Bool Ascii String List Lia.
From Stdlib Require Import Floats SpecFloat.
Import ListNotations.

Set Warnings "-inexact-float".
Set Default Proof Using "Type".

Open Scope Z_scope.

(** ** JavaScript primitives used by the plugin *)
Module JS.

(** *** Numbers *)

Abbreviation number := float (only parsing).

Definition NEGATIVE_INFINITY : float := neg_infinity.
Definition POSITIVE_INFINITY : float := infinity.

Definition is_neg_zero (a : float) : bool :=
  match PrimFloat.classify a with
  | NZero => true
  | _ => false
  end.

(** [Math.min] and [Math.max] on two arguments: a NaN argument gives NaN,
    and [-0] counts as smaller than [+0]. *)
Definition Math_min (a b : float) : float :=
  if PrimFloat.is_nan a || PrimFloat.is_nan b then nan
  else if PrimFloat.ltb a b then a
  else if PrimFloat.ltb b a then b
  else if is_neg_zero a then a else b.

Definition Math_max (a b : float) : float :=
  if PrimFloat.is_nan a || PrimFloat.is_nan b then nan
  else if PrimFloat.ltb b a then a
  else if PrimFloat.ltb a b then b
  else if is_neg_zero a then b else a.

(** [Math.fround]: the nearest binary32 number, ties to even; what a store
    into a [Float32Array] does to a number. *)
Definition Math_fround (x : float) : float :=
  match Prim2SF x with
  | S754_finite s m e => SF2Prim (binary_round 24 128 s m e)
  | _ => x
  end.

(** The value a counter holds after [n] executions of [i++] from [0]. *)
Fixpoint counter (n : nat) : float :=
  match n with
  | O => 0%float
  | S k => (counter k + 1)%float
  end.

(** *** Strings *)

Definition LF : ascii := ascii_of_nat 10.
Definition CR : ascii := ascii_of_nat 13.

Definition isLineTerminator (c : ascii) : bool :=
  Ascii.eqb c LF || Ascii.eqb c CR.

(** White space as [String.prototype.trim] sees it, for code units below
    256: TAB, LF, VT, FF, CR, SPACE and NBSP. *)
Definition isWhiteSpace (c : ascii) : bool :=
  let n := nat_of_ascii c in
  ((9 <=? n)%nat && (n <=? 13)%nat) || (n =? 32)%nat || (n =? 160)%nat.

Fixpoint all_chars (p : ascii -> bool) (s : string) : bool :=
  match s with
  | EmptyString => true
  | String c s' => p c && all_chars p s'
  end.

(** [s.trim() === ''] *)
Definition trim_is_empty (s : string) : bool := all_chars isWhiteSpace s.

(** [s.split(/\r\n|\r|\n/)]: a CR LF pair is one separator; the result
    always has at least one element. *)
Fixpoint split_lines (s : string) : list string :=
  match s with
  | EmptyString => [EmptyString]
  | String c s' =>
      if Ascii.eqb c CR then
        match s' with
        | String c' s'' =>
            if Ascii.eqb c' LF then EmptyString :: split_lines s''
            else EmptyString :: split_lines s'
        | EmptyString => EmptyString :: split_lines s'
        end
      else if Ascii.eqb c LF then EmptyString :: split_lines s'
      else
        match split_lines s' with
        | l :: ls => String c l :: ls
        | [] => [String c EmptyString]
        end
  end.

(** [hay.indexOf(needle)]: the first position, or [-1]. *)
Definition indexOf (hay needle : string) : Z :=
  match String.index 0 needle hay with
  | Some n => Z.of_nat n
  | None => -1
  end.

(** [s.match(/^.*\//)]: the longest prefix of the first line of [s] that
    ends in a slash; [None] is JavaScript's [null]. *)
Fixpoint match_base_path (s : string) : option string :=
  match s with
  | EmptyString => None
  | String c s' =>
      if isLineTerminator c then None
      else
        match match_base_path s' with
        | Some p => Some (String c p)
        | None => if Ascii.eqb c "/"%char then Some (String c EmptyString) else None
        end
  end.

(** [m + s] where [m] is the result of [String.prototype.match]: the match
    array converts to the matched text, [null] converts to ["null"]. *)
Definition match_plus (m : option string) (s : string) : string :=
  match m with
  | Some p => p +:+ s
  | None => "null" +:+ s
  end.

End JS.

(** ** The host engine's loader, as far as the load jobs use it *)
Module Phaser.

(** What a file task's [data] field can hold. *)
Inductive FileData : Type :=
| Undefined
| Text (s : string)
| ImageData (pixels : string)
| AtlasObject (data : FileData) (premultipliedAlpha : bool).

#[global] Instance FileData_eq_dec : EqDecision FileData.
Proof. solve_decision. Defined.

Record File : Type := mkFile {
  file_type : string;
  file_key : string;
  file_url : string;
  file_src : string;
  file_data : FileData
}.

#[global] Instance File_eq_dec : EqDecision File.
Proof. solve_decision. Defined.

(** [new Phaser.Loader.FileTypes.TextFile(loader, { key, url, ... })] *)
Definition TextFile (key url : string) : File :=
  mkFile "text" key url "" Undefined.

(** [new Phaser.Loader.FileTypes.ImageFile(loader, key, url)] *)
Definition ImageFile (key url : string) : File :=
  mkFile "image" key url "" Undefined.

(** The engine-wide caches the loader installs into. *)
Record Game : Type := mkGame {
  textures : gmap string FileData;
  cache_text : gmap string FileData;
  cache_json : gmap string string;
  cache_binary : gmap string (list Byte.byte)
}.

Record Loader : Type := mkLoader {
  game : Game;
  queue : list File
}.

Definition same_task (a b : File) : bool :=
  String.eqb (file_type a) (file_type b) && String.eqb (file_key a) (file_key b).

(** Modelled from the spec: the host loader's "key exists" table, which is
    engine code outside this repository.  The spec describes it as the
    global table of in-flight or complete keys against which a new task is
    checked before it is scheduled; a task is in the table when an entry of
    the same file type carries its key. *)
Definition keyExists (l : Loader) (file : File) : bool :=
  existsb (same_task file) (queue l).

(** Modelled from the spec: appending a task to the global download queue;
    the loader itself never schedules a key twice. *)
Definition addFile (l : Loader) (file : File) : Loader :=
  if keyExists l file then l
  else mkLoader (game l) (queue l ++ [file]).

Definition textureManager_exists (g : Game) (key : string) : bool :=
  bool_decide (is_Some (textures g !! key)).

Definition textureManager_addImage (g : Game) (key : string) (d : FileData) : Game :=
  mkGame (<[key := d]> (textures g)) (cache_text g) (cache_json g) (cache_binary g).

(** [file.addToCache()] of a text file: [cache.text.add(key, data)]. *)
Definition TextFile_addToCache (g : Game) (file : File) : Game :=
  mkGame (textures g) (<[file_key file := file_data file]> (cache_text g))
         (cache_json g) (cache_binary g).

Definition emptyGame : Game := mkGame ∅ ∅ ∅ ∅.
Definition emptyLoader : Loader := mkLoader emptyGame [].

End Phaser.

(** ** [SpineAtlasFile]: the atlas load job of [keys.js] *)
Module SpineAtlasFile.
Import Phaser.

(** A [Phaser.Loader.MultiFile] with the job's own flag. *)
Record t : Type := mk {
  key : string;
  files : list File;
  pending : Z;
  failed : Z;
  complete : bool;
  premultipliedAlpha : bool
}.

(** [constructor(loader, key, url, premultipliedAlpha = true, xhrSettings)];
    the config-object form resolves [config.premultipliedAlpha ?? true].
    [None] is an omitted flag. *)
Definition new (key url : string) (premultipliedAlpha : option bool) : t :=
  mk key [TextFile key url] 1 0 false (default true premultipliedAlpha).

Definition addToMultiFile (this : t) (file : File) : t :=
  mk (key this) (files this ++ [file]) (pending this + 1) (failed this)
     false (premultipliedAlpha this).

(** A page-image task of the job. *)
Definition is_image (f : File) : Prop := file_type f = "image"%string.

Definition isReadyToProcess (this : t) : bool :=
  (pending this =? 0) && (failed this =? 0) && negb (complete this).

(** The page names read off the atlas text: line 0, then every line that
    directly follows a blank line other than the last line. *)
Definition textures_of (lines : list string) : list string :=
  fold_left
    (fun textures t =>
       let line := nth t lines EmptyString in
       if JS.trim_is_empty line && (t <? length lines - 1)%nat
       then textures ++ [nth (t + 1) lines EmptyString]
       else textures)
    (seq 1 (length lines - 1))
    [nth 0 lines EmptyString].

(** The lines that [textures_of] collects after line 0, by recursion on the
    lines that follow it: a line is collected when the line before it is
    blank; the last line is never examined as a possible blank. *)
Fixpoint pagesAfter (rest : list string) : list string :=
  match rest with
  | [] => []
  | line :: rest' =>
      match rest' with
      | [] => []
      | next :: _ =>
          if JS.trim_is_empty line then next :: pagesAfter rest'
          else pagesAfter rest'
      end
  end.


(** A text without line terminators, and a text without a slash. *)
Definition singleLine (s : string) : Prop :=
  JS.all_chars (fun ch => negb (JS.isLineTerminator ch)) s = true.

Definition noSlash (s : string) : Prop :=
  JS.all_chars (fun ch => negb (Ascii.eqb ch "/"%char)) s = true.

(** The key and the task of a page image of the atlas [fileKey]. *)
Definition imageKey (fileKey texture : string) : string :=
  fileKey +:+ "!" +:+ texture.

Definition pageImage (fileKey : string) (basePath : option string)
    (texture : string) : File :=
  ImageFile (imageKey fileKey texture) (JS.match_plus basePath texture).

(** One pass of the loop over [textures] in [onFileComplete]. *)
Definition addPageImage (fileKey : string) (basePath : option string)
    (st : Loader * t) (texture : string) : Loader * t :=
  let '(loader, this) := st in
  let url := JS.match_plus basePath texture in
  let key := fileKey +:+ "!" +:+ texture in
  let image := ImageFile key url in
  if negb (keyExists loader image)
  then (addFile loader image, addToMultiFile this image)
  else (loader, this).

(** [onFileComplete(file)]; [None] is a thrown [TypeError] (the text
    file's data is not a string). *)
Definition onFileComplete (loader : Loader) (this : t) (file : File)
    : option (Loader * t) :=
  if bool_decide (file ∈ files this) then
    let this := mk (key this) (files this) (pending this - 1) (failed this)
                   (complete this) (premultipliedAlpha this) in
    if String.eqb (file_type file) "text" then
      match file_data file with
      | Text data =>
          let lines := JS.split_lines data in
          let textures := textures_of lines in
          let basePath := JS.match_base_path (file_src file) in
          Some (fold_left (addPageImage (file_key file) basePath) textures
                          (loader, this))
      | _ => None
      end
    else Some (loader, this)
  else Some (loader, this).

(** The flag stored with the atlas text:
    [this.premultipliedAlpha || file.data.indexOf("pma: true") >= 0]. *)
Definition resolve_premultipliedAlpha (explicit : bool) (d : FileData)
    : option bool :=
  if explicit then Some true
  else
    match d with
    | Text s => Some (0 <=? JS.indexOf s "pma: true")
    | _ => None
    end.

(** One pass of the loop over [this.files] in [addToCache]: the game
    caches and the files seen so far, with the text file's data replaced. *)
Definition cacheFile (pma : bool) (st : option (Game * list File))
    (file : File) : option (Game * list File) :=
  '(g, done) ← st;
  if String.eqb (file_type file) "image" then
    if negb (textureManager_exists g (file_key file))
    then Some (textureManager_addImage g (file_key file) (file_data file),
               done ++ [file])
    else Some (g, done ++ [file])
  else
    flag ← resolve_premultipliedAlpha pma (file_data file);
    let file' := mkFile (file_type file) (file_key file) (file_url file)
                        (file_src file)
                        (AtlasObject (file_data file) flag) in
    Some (TextFile_addToCache g file', done ++ [file']).

(** [addToCache()]; [None] is a thrown [TypeError]. *)
Definition addToCache (loader : Loader) (this : t) : option (Loader * t) :=
  if isReadyToProcess this then
    '(g, files') ← fold_left (cacheFile (premultipliedAlpha this))
                             (files this) (Some (game loader, []));
    Some (mkLoader g (queue loader),
          mk (key this) files' (pending this) (failed this) (complete this)
             (premultipliedAlpha this))
  else Some (loader, this).

End SpineAtlasFile.

(** ** The animation runtime (spine-core, spine-webgl, spine-canvas)

    The runtime is an external collaborator: the plugin only calls it.  Its
    objects are mutable; here every method returns the object it changed. *)
Module Spine.

Record Rect : Type := mkRect {
  x : float;
  y : float;
  width : float;
  height : float
}.

(** What an atlas page is bound to: [new GLTexture(gl, image, false)] or
    [new CanvasTexture(image)]. *)
Inductive Texture : Type :=
| GLTexture (image : Phaser.FileData)
| CanvasTexture (image : Phaser.FileData).

Class Runtime : Type := {
  TextureAtlas : Type;
  SkeletonData : Type;
  Skeleton : Type;
  Skin : Type;
  Animation : Type;
  AnimationStateData : Type;
  AnimationState : Type;
  (** [new TextureAtlas(text)]; [None] when the parser throws. *)
  TextureAtlas_new : string -> option TextureAtlas;
  (** the names of [atlas.pages], in order *)
  TextureAtlas_pages : TextureAtlas -> list string;
  (** [atlas.pages[i].setTexture(texture)] *)
  AtlasPage_setTexture : TextureAtlas -> nat -> Texture -> TextureAtlas;
  (** [new SkeletonJson(new AtlasAttachmentLoader(atlas)).readSkeletonData(json)] *)
  SkeletonJson_readSkeletonData : TextureAtlas -> string -> option SkeletonData;
  (** [new SkeletonBinary(new AtlasAttachmentLoader(atlas)).readSkeletonData(bytes)] *)
  SkeletonBinary_readSkeletonData :
    TextureAtlas -> list Byte.byte -> option SkeletonData;
  SkeletonData_findSkin : SkeletonData -> string -> option Skin;
  SkeletonData_findAnimation : SkeletonData -> string -> option Animation;
  Animation_duration : Animation -> float;
  Skin_new : string -> Skin;
  Skin_addSkin : Skin -> Skin -> Skin;
  Skeleton_new : SkeletonData -> Skeleton;
  Skeleton_data : Skeleton -> SkeletonData;
  Skeleton_setSkin : Skeleton -> Skin -> Skeleton;
  Skeleton_setToSetupPose : Skeleton -> Skeleton;
  Skeleton_updateWorldTransform : Skeleton -> Skeleton;
  Skeleton_getBoundsRect : Skeleton -> Rect;
  AnimationState_new : AnimationStateData -> AnimationState;
  AnimationState_data : AnimationState -> AnimationStateData;
  AnimationState_clearTracks : AnimationState -> AnimationState;
  AnimationState_setAnimationWith :
    AnimationState -> Z -> Animation -> bool -> AnimationState;
  AnimationState_update : AnimationState -> float -> AnimationState;
  AnimationState_apply : AnimationState -> Skeleton -> AnimationState * Skeleton
}.

End Spine.

(** ** [SpinePlugin]: the cache accessors of [keys.js] *)
Module SpinePlugin.
Import Phaser Spine.

Section WithRuntime.
Context {RT : Runtime}.

Record t : Type := mk {
  isWebGL : bool;
  skeletonDataCache : gmap string SkeletonData;
  atlasCache : gmap string TextureAtlas
}.

(** [this.game.textures.get(key).getSourceImage()]; the texture manager
    answers an unknown key with its placeholder texture. *)
Definition getSourceImage (g : Game) (key : string) : FileData :=
  default (ImageData "__MISSING") (textures g !! key).

(** The loop over [atlas.pages] in [getAtlas]. *)
Definition bindPages (g : Game) (webGL : bool) (atlasKey : string)
    (atlas : TextureAtlas) : TextureAtlas :=
  fold_left
    (fun atlas '(i, name) =>
       let image := getSourceImage g (atlasKey +:+ "!" +:+ name) in
       AtlasPage_setTexture atlas i
         (if webGL then GLTexture image else CanvasTexture image))
    (imap (fun i name => (i, name)) (TextureAtlas_pages atlas))
    atlas.

(** [atlasFile.data] of a text-cache entry, as the atlas parser needs it:
    a string.  Anything else makes the lookup or the parser throw. *)
Definition atlasText (entry : FileData) : option string :=
  match entry with
  | AtlasObject (Text s) _ => Some s
  | _ => None
  end.

(** [getAtlas(atlasKey)]; [None] is a thrown error. *)
Definition getAtlas (g : Game) (this : t) (atlasKey : string)
    : option (TextureAtlas * t) :=
  match atlasCache this !! atlasKey with
  | Some atlas => Some (atlas, this)
  | None =>
      atlasFile ← cache_text g !! atlasKey;
      text ← atlasText atlasFile;
      atlas ← TextureAtlas_new text;
      let atlas := bindPages g (isWebGL this) atlasKey atlas in
      Some (atlas,
            mk (isWebGL this) (skeletonDataCache this)
               (<[atlasKey := atlas]> (atlasCache this)))
  end.

(** [isAtlasPremultiplied(atlasKey)]; the inner [None] is [undefined]
    (an entry without the field). *)
Definition isAtlasPremultiplied (g : Game) (atlasKey : string)
    : option bool :=
  match cache_text g !! atlasKey with
  | None => Some false
  | Some Undefined => Some false
  | Some (Text EmptyString) => Some false
  | Some (AtlasObject _ premultipliedAlpha) => Some premultipliedAlpha
  | Some _ => None
  end.

(** [getSkeletonData(dataKey, atlasKey)]; [None] is a thrown error. *)
Definition getSkeletonData (g : Game) (this : t) (dataKey atlasKey : string)
    : option (SkeletonData * t) :=
  '(atlas, this) ← getAtlas g this atlasKey;
  let combinedKey := dataKey +:+ atlasKey in
  match skeletonDataCache this !! combinedKey with
  | Some skeletonData => Some (skeletonData, this)
  | None =>
      skeletonData ←
        match cache_json g !! dataKey with
        | Some jsonFile => SkeletonJson_readSkeletonData atlas jsonFile
        | None =>
            let binaryFile := default [] (cache_binary g !! dataKey) in
            SkeletonBinary_readSkeletonData atlas binaryFile
        end;
      Some (skeletonData,
            mk (isWebGL this)
               (<[combinedKey := skeletonData]> (skeletonDataCache this))
               (atlasCache this))
  end.

(** [createSkeleton(dataKey, atlasKey)] *)
Definition createSkeleton (g : Game) (this : t) (dataKey atlasKey : string)
    : option (Skeleton * t) :=
  '(skeletonData, this) ← getSkeletonData g this dataKey atlasKey;
  Some (Skeleton_new skeletonData, this).

End WithRuntime.
Arguments t {RT}.

End SpinePlugin.

(** ** [SpineGameObject.js]: bounds providers, coordinate helpers, [updatePose] *)
Module SpineGameObject.
Import Spine.

(** *** Arithmetic of the coordinate helpers

    The helpers only add, subtract, multiply, divide and negate, and the
    engine's matrix rounds what is stored into it.  The helpers are written
    over these operations; the code runs them on binary64 numbers. *)
Class Arith (T : Type) : Type := {
  add : T -> T -> T;
  sub : T -> T -> T;
  mul : T -> T -> T;
  div : T -> T -> T;
  opp : T -> T;
  fround : T -> T
}.

#[global] Instance float_Arith : Arith float := {
  add := PrimFloat.add;
  sub := PrimFloat.sub;
  mul := PrimFloat.mul;
  div := PrimFloat.div;
  opp := PrimFloat.opp;
  fround := JS.Math_fround
}.

Record Point (T : Type) : Type := mkPoint { px : T; py : T }.
Arguments mkPoint {T}.
Arguments px {T}.
Arguments py {T}.

(** The components of a [Phaser.GameObjects.Components.TransformMatrix].
    The engine keeps them in a [Float32Array]: what is read from a matrix
    is a binary32 number. *)
Record TransformMatrix (T : Type) : Type := mkMatrix {
  a : T; b : T; c : T; d : T; tx : T; ty : T
}.
Arguments mkMatrix {T}.
Arguments a {T}.
Arguments b {T}.
Arguments c {T}.
Arguments d {T}.
Arguments tx {T}.
Arguments ty {T}.

Section Coordinates.
Context {T : Type} `{Arith T}.

(** Modelled from the spec: [transform.invert()] of the host engine, the
    matrix inverse of the 2D affine transform, computed from the
    determinant [a*d - b*c].  The engine keeps the six components of a
    matrix in a [Float32Array]: each component of the inverse is rounded to
    binary32 as it is stored. *)
Definition invert (m : TransformMatrix T) : TransformMatrix T :=
  let n := sub (mul (a m) (d m)) (mul (b m) (c m)) in
  mkMatrix (fround (div (d m) n))
           (fround (div (opp (b m)) n))
           (fround (div (opp (c m)) n))
           (fround (div (a m) n))
           (fround (div (sub (mul (c m) (ty m)) (mul (d m) (tx m))) n))
           (fround (div (opp (sub (mul (a m) (ty m)) (mul (b m) (tx m)))) n)).

(** [skeletonToPhaserWorldCoordinates(point)], where [transform] is the
    value of [this.getWorldTransformMatrix()]. *)
Definition skeletonToPhaserWorldCoordinates
    (transform : TransformMatrix T) (point : Point T) : Point T :=
  let x := px point in
  let y := py point in
  mkPoint (add (add (mul x (a transform)) (mul y (c transform))) (tx transform))
          (add (add (mul x (b transform)) (mul y (d transform))) (ty transform)).

(** [phaserWorldCoordinatesToSkeleton(point)] *)
Definition phaserWorldCoordinatesToSkeleton
    (transform : TransformMatrix T) (point : Point T) : Point T :=
  let transform := invert transform in
  let x := px point in
  let y := py point in
  mkPoint (add (add (mul x (a transform)) (mul y (c transform))) (tx transform))
          (add (add (mul x (b transform)) (mul y (d transform))) (ty transform)).

End Coordinates.

Definition zeroRect : Rect := mkRect 0 0 0 0.

(** [bounds.width == Number.NEGATIVE_INFINITY ? {0,0,0,0} : bounds] *)
Definition collapse (bounds : Rect) : Rect :=
  if PrimFloat.eqb (width bounds) JS.NEGATIVE_INFINITY then zeroRect else bounds.

(** The two bounds providers; [animation = None] is [null]. *)
Inductive BoundsProvider : Type :=
| SetupPoseBoundsProvider
| SkinsAndAnimationBoundsProvider
    (animation : option string) (skins : list string) (timeStep : float).

(** [new SkinsAndAnimationBoundsProvider(animation, skins = [], timeStep = 0.05)] *)
Definition SkinsAndAnimationBoundsProvider_new (animation : option string)
    (skins : option (list string)) (timeStep : option float) : BoundsProvider :=
  SkinsAndAnimationBoundsProvider animation (default [] skins)
                                  (default 0.05%float timeStep).

Section WithRuntime.
Context {RT : Runtime}.

Record GameObject : Type := mkGameObject {
  boundsProvider : BoundsProvider;
  premultipliedAlpha : bool;
  skeleton : option Skeleton;
  animationStateData : option AnimationStateData;
  animationState : option AnimationState;
  gwidth : float;
  gheight : float;
  displayOriginX : float;
  displayOriginY : float
}.

(** [SetupPoseBoundsProvider.calculateBounds(gameObject)] *)
Definition SetupPose_calculateBounds (gameObject : GameObject) : Rect :=
  match skeleton gameObject with
  | None => zeroRect
  | Some live =>
      let skeleton := Skeleton_new (Skeleton_data live) in
      let skeleton := Skeleton_setToSetupPose skeleton in
      let skeleton := Skeleton_updateWorldTransform skeleton in
      let bounds := Skeleton_getBoundsRect skeleton in
      collapse bounds
  end.

(** The running corners [minX, minY, maxX, maxY]. *)
Record Corners : Type := mkCorners {
  minX : float; minY : float; maxX : float; maxY : float
}.

Definition initialCorners : Corners :=
  mkCorners JS.POSITIVE_INFINITY JS.POSITIVE_INFINITY
            JS.NEGATIVE_INFINITY JS.NEGATIVE_INFINITY.

(** The four assignments at the end of the loop body. *)
Definition accumulate (acc : Corners) (bounds : Rect) : Corners :=
  let minX := JS.Math_min (minX acc) (x bounds) in
  let minY := JS.Math_min (minY acc) (y bounds) in
  let maxX := JS.Math_max (maxX acc) (minX + width bounds)%float in
  let maxY := JS.Math_max (maxY acc) (minY + height bounds)%float in
  mkCorners minX minY maxX maxY.

(** [for (let i = 0; i < steps; i++) { ... }].  The counter takes the
    values 0, 1, 2, ...; [i] counts the passes made so far and
    [JS.counter i] is the number the JavaScript variable holds.  [None]
    means the fuel ran out before the loop condition failed. *)
Fixpoint sampleLoop (fuel : nat) (i : nat) (steps timeStep : float)
    (animationState : AnimationState) (skeleton : Skeleton)
    (acc : Corners) : option Corners :=
  if PrimFloat.ltb (JS.counter i) steps then
    match fuel with
    | O => None
    | S fuel' =>
        let animationState :=
          AnimationState_update animationState
            (if (0 <? i)%nat then timeStep else 0%float) in
        let '(animationState, skeleton) :=
          AnimationState_apply animationState skeleton in
        let skeleton := Skeleton_updateWorldTransform skeleton in
        let bounds := Skeleton_getBoundsRect skeleton in
        sampleLoop fuel' (S i) steps timeStep animationState skeleton
                   (accumulate acc bounds)
    end
  else Some acc.

(** The loop over [this.skins] that fills the custom skin. *)
Definition combineSkins (data : SkeletonData) (skins : list string) : Skin :=
  fold_left
    (fun customSkin skinName =>
       match SkeletonData_findSkin data skinName with
       | None => customSkin
       | Some skin => Skin_addSkin customSkin skin
       end)
    skins (Skin_new "custom-skin").

(** [SkinsAndAnimationBoundsProvider.calculateBounds(gameObject)];
    [None] only when the sampling loop needs more than [fuel] passes. *)
Definition SkinsAndAnimation_calculateBounds (fuel : nat)
    (animation : option string) (skins : list string) (timeStep : float)
    (gameObject : GameObject) : option Rect :=
  match skeleton gameObject, animationState gameObject with
  | Some liveSkeleton, Some liveState =>
      let animationState := AnimationState_new (AnimationState_data liveState) in
      let skeleton := Skeleton_new (Skeleton_data liveSkeleton) in
      let data := Skeleton_data skeleton in
      let skeleton :=
        if (0 <? length skins)%nat
        then Skeleton_setSkin skeleton (combineSkins data skins)
        else skeleton in
      let skeleton := Skeleton_setToSetupPose skeleton in
      let animation :=
        match animation with
        | Some name => SkeletonData_findAnimation data name
        | None => None
        end in
      match animation with
      | None =>
          let skeleton := Skeleton_updateWorldTransform skeleton in
          let bounds := Skeleton_getBoundsRect skeleton in
          Some (collapse bounds)
      | Some animation =>
          let animationState := AnimationState_clearTracks animationState in
          let animationState :=
            AnimationState_setAnimationWith animationState 0 animation false in
          let steps :=
            JS.Math_max (Animation_duration animation / timeStep)%float 1%float in
          corners ← sampleLoop fuel 0 steps timeStep animationState skeleton
                               initialCorners;
          let bounds := mkRect (minX corners) (minY corners)
                               (maxX corners - minX corners)%float
                               (maxY corners - minY corners)%float in
          Some (collapse bounds)
      end
  | _, _ => Some zeroRect
  end.

(** [this.boundsProvider.calculateBounds(this)] *)
Definition calculateBounds (fuel : nat) (provider : BoundsProvider)
    (gameObject : GameObject) : option Rect :=
  match provider with
  | SetupPoseBoundsProvider => Some (SetupPose_calculateBounds gameObject)
  | SkinsAndAnimationBoundsProvider animation skins timeStep =>
      SkinsAndAnimation_calculateBounds fuel animation skins timeStep gameObject
  end.

(** [updateSize()] *)
Definition updateSize (fuel : nat) (this : GameObject) : option GameObject :=
  match skeleton this with
  | None => Some this
  | Some _ =>
      bounds ← calculateBounds fuel (boundsProvider this) this;
      Some (mkGameObject (boundsProvider this) (premultipliedAlpha this)
              (skeleton this) (animationStateData this) (animationState this)
              (width bounds) (height bounds)
              (- x bounds)%float (- y bounds)%float)
  end.

(** *** [updatePose]

    The calls [updatePose] makes on the runtime and on the two hooks are
    effects; a run is recorded as the list of effects it performed, in
    order, next to its outcome.  An outcome of [None] is a thrown error:
    the effects before it have happened. *)
Inductive Effect : Type :=
| AnimationState_update_call (delta : float)
| AnimationState_apply_call
| beforeUpdateWorldTransforms_call
| Skeleton_updateWorldTransform_call
| afterUpdateWorldTransforms_call.

Definition M (A : Type) : Type :=
  GameObject -> list Effect * option (A * GameObject).

Definition ret {A} (v : A) : M A := fun this => ([], Some (v, this)).

Definition bind {A B} (m : M A) (k : A -> M B) : M B :=
  fun this =>
    let '(effects, outcome) := m this in
    match outcome with
    | None => (effects, None)
    | Some (v, this') =>
        let '(effects', outcome') := k v this' in
        (effects ++ effects', outcome')
    end.

Definition perform (e : Effect) : M unit := fun this => ([e], Some (tt, this)).
Definition throw {A} : M A := fun _ => ([], None).
Definition read {A} (field : GameObject -> A) : M A :=
  fun this => ([], Some (field this, this)).
Definition modify (f : GameObject -> GameObject) : M unit :=
  fun this => ([], Some (tt, f this)).

(** [this.field] used as the receiver or argument of a runtime call: an
    unbound field makes the call throw. *)
Definition bound {A} (field : GameObject -> option A) : M A :=
  fun this =>
    match field this with
    | Some v => ([], Some (v, this))
    | None => ([], None)
    end.

Definition set_animationState (s : AnimationState) (this : GameObject)
    : GameObject :=
  mkGameObject (boundsProvider this) (premultipliedAlpha this) (skeleton this)
    (animationStateData this) (Some s) (gwidth this) (gheight this)
    (displayOriginX this) (displayOriginY this).

Definition set_skeleton (s : Skeleton) (this : GameObject) : GameObject :=
  mkGameObject (boundsProvider this) (premultipliedAlpha this) (Some s)
    (animationStateData this) (animationState this) (gwidth this)
    (gheight this) (displayOriginX this) (displayOriginY this).

(** The two callback fields.  A callback receives the game object and may
    change it. *)
Record Hooks : Type := mkHooks {
  beforeUpdateWorldTransforms : GameObject -> GameObject;
  afterUpdateWorldTransforms : GameObject -> GameObject
}.

(** The constructor's defaults: [() => { }]. *)
Definition defaultHooks : Hooks := mkHooks (fun this => this) (fun this => this).

Local Notation "x <- m ;; k" := (bind m (fun x => k))
  (at level 100, m at next level, right associativity).
Local Notation "m ;;; k" := (bind m (fun _ => k))
  (at level 100, right associativity).

(** [updatePose(delta)] *)
Definition updatePose (hooks : Hooks) (delta : float) : M unit :=
  state <- bound animationState ;;
  perform (AnimationState_update_call (delta / 1000)%float) ;;;
  modify (set_animationState (AnimationState_update state (delta / 1000)%float)) ;;;
  state <- bound animationState ;;
  skel <- bound skeleton ;;
  perform AnimationState_apply_call ;;;
  modify (fun this =>
            let '(state', skel') := AnimationState_apply state skel in
            set_skeleton skel' (set_animationState state' this)) ;;;
  perform beforeUpdateWorldTransforms_call ;;;
  modify (beforeUpdateWorldTransforms hooks) ;;;
  skel <- bound skeleton ;;
  perform Skeleton_updateWorldTransform_call ;;;
  modify (set_skeleton (Skeleton_updateWorldTransform skel)) ;;;
  perform afterUpdateWorldTransforms_call ;;;
  modify (afterUpdateWorldTransforms hooks).

(** [preUpdate(time, delta)] *)
Definition preUpdate (hooks : Hooks) (time delta : float) : M unit :=
  fun this =>
    match skeleton this, animationState this with
    | Some _, Some _ => updatePose hooks delta this
    | _, _ => ret tt this
    end.

(** The order the documentation of [updatePose] gives. *)
Definition poseSteps (delta : float) : list Effect :=
  [ AnimationState_update_call (delta / 1000)%float;
    AnimationState_apply_call;
    beforeUpdateWorldTransforms_call;
    Skeleton_updateWorldTransform_call;
    afterUpdateWorldTransforms_call ].

End WithRuntime.

End SpineGameObject.

(** ** The download driver around an atlas job *)
Module Loading.
Import Phaser SpineAtlasFile.

(** A file whose download finished: [src] is the resolved URL and [data]
    the payload. *)
Definition loaded (src : string) (d : FileData) (f : File) : File :=
  mkFile (file_type f) (file_key f) (file_url f) src d.

Definition set_files (this : t) (fs : list File) : t :=
  mk (key this) fs (pending this) (failed this) (complete this)
     (premultipliedAlpha this).

(** The [i]-th file of the job finishes loading and the job is told. *)
Definition completeFile (src : string) (d : FileData) (i : nat)
    (st : Loader * t) : option (Loader * t) :=
  let '(loader, this) := st in
  file ← files this !! i;
  let file := loaded src d file in
  onFileComplete loader (set_files this (<[i := file]> (files this))) file.

(** Every image task from position [i] on finishes loading; an image's
    pixels are a function of its URL. *)
Fixpoint completeImages (pixels : string -> string) (n i : nat)
    (st : Loader * t) : option (Loader * t) :=
  match n with
  | O => Some st
  | S n' =>
      match files (snd st) !! i with
      | None => Some st
      | Some file =>
          st' ← completeFile (file_url file)
                             (ImageData (pixels (file_url file))) i st;
          completeImages pixels n' (S i) st'
      end
  end.

(** Modelled from the spec: the host's file-download subsystem driving one
    atlas job, which is engine code outside this repository.  The job is
    created and its text task queued; the text arrives and the job
    discovers its page images; every page image arrives; the job, now with
    no pending task, is installed into the caches. *)
Definition loadAtlas (pixels : string -> string) (loader : Loader)
    (key url : string) (premultipliedAlpha : option bool) (text : string)
    : option (Loader * t) :=
  let this := new key url premultipliedAlpha in
  let loader := fold_left addFile (files this) loader in
  st ← completeFile url (Text text) 0 (loader, this);
  st ← completeImages pixels (length (files (snd st))) 1 st;
  addToCache (fst st) (snd st).

End Loading.

(** ** The sampling policy in the words of the specification *)
Module BoundsSpec.
Import Spine SpineGameObject.

Section WithRuntime.
Context {RT : Runtime}.

(** The first [n] per-sample rectangles: sample 0 advances the animation
    state by zero, every later sample by [timeStep]; after each advance
    the state is applied to the skeleton, the world transforms are
    recomputed and the bounding rectangle is read. *)
Fixpoint sampleRects (n : nat) (first : bool) (timeStep : float)
    (state : AnimationState) (skel : Skeleton) : list Rect :=
  match n with
  | O => []
  | S n' =>
      let state := AnimationState_update state
                     (if first then 0%float else timeStep) in
      let '(state, skel) := AnimationState_apply state skel in
      let skel := Skeleton_updateWorldTransform skel in
      Skeleton_getBoundsRect skel
        :: sampleRects n' false timeStep state skel
  end.

(** Folding one sample into the running corners: the min corner follows
    the sample's origin, the max corner is taken from the running min
    corner plus the sample's extent. *)
Definition foldSample (acc : Corners) (sample : Rect) : Corners :=
  let newMinX := JS.Math_min (minX acc) (x sample) in
  let newMinY := JS.Math_min (minY acc) (y sample) in
  mkCorners newMinX newMinY
    (JS.Math_max (maxX acc) (newMinX + width sample)%float)
    (JS.Math_max (maxY acc) (newMinY + height sample)%float).

(** [{minX, minY, maxX - minX, maxY - minY}], all zero when the width is
    negative infinity. *)
Definition finalRect (acc : Corners) : Rect :=
  let r := mkRect (minX acc) (minY acc)
                  (maxX acc - minX acc)%float (maxY acc - minY acc)%float in
  if PrimFloat.eqb (width r) neg_infinity then mkRect 0 0 0 0 else r.

(** The state and skeleton the sampling starts from. *)
Definition sampledState (liveState : AnimationState) (animation : Animation)
    : AnimationState :=
  AnimationState_setAnimationWith
    (AnimationState_clearTracks
       (AnimationState_new (AnimationState_data liveState)))
    0 animation false.

Definition sampledSkeleton (liveSkeleton : Skeleton) (skins : list string)
    : Skeleton :=
  let fresh := Skeleton_new (Skeleton_data liveSkeleton) in
  Skeleton_setToSetupPose
    (if (0 <? length skins)%nat
     then Skeleton_setSkin fresh (combineSkins (Skeleton_data fresh) skins)
     else fresh).

(** [steps = max(duration / timeStep, 1)] *)
Definition steps (animation : Animation) (timeStep : float) : float :=
  JS.Math_max (Animation_duration animation / timeStep)%float 1%float.

(** The loop variable takes the values 0, 1, 2, ... while it is below
    [steps]: the loop makes exactly [n] passes. *)
Definition passes (s : float) (n : nat) : Prop :=
  (forall k, (k < n)%nat -> PrimFloat.ltb (JS.counter k) s = true)
  /\ PrimFloat.ltb (JS.counter n) s = false.

End WithRuntime.

End BoundsSpec.

(** ** A small runtime to run the definitions on concrete inputs

    A rig whose bounding rectangle slides and grows with the time its
    animation state has accumulated. *)
Module Demo.
Import Spine.

Record Data : Type := mkData {
  source : string;
  animations : list (string * float);
  skinNames : list string
}.

Record Skel : Type := mkSkel {
  skel_data : Data;
  skel_time : float;
  skel_skin : list string;
  skel_world : float
}.

Record State : Type := mkState {
  state_data : Data;
  state_track : option (string * float);
  state_time : float
}.

Record Atlas : Type := mkAtlas {
  atlas_text : string;
  atlas_pages : list (string * option Texture)
}.

Definition findBy {A} (name : string) (l : list (string * A)) : option (string * A) :=
  List.find (fun p => String.eqb (fst p) name) l.

(** Every attachment set of the bound skin makes the rig 16 units taller. *)
Definition skinExtent (skin : list string) : float :=
  fold_left (fun extent _ => (extent + 16)%float) skin 0%float.

Definition rigData (doc : string) : Data :=
  mkData doc [("walk"%string, 0.12%float); ("idle"%string, 0%float)]
         ["default"%string; "red"%string].

#[global] Instance runtime : Runtime := {
  TextureAtlas := Atlas;
  SkeletonData := Data;
  Skeleton := Skel;
  Skin := list string;
  Animation := string * float;
  AnimationStateData := Data;
  AnimationState := State;
  TextureAtlas_new text :=
    Some (mkAtlas text
            (map (fun n => (n, None))
                 (SpineAtlasFile.textures_of (JS.split_lines text))));
  TextureAtlas_pages atlas := map fst (atlas_pages atlas);
  AtlasPage_setTexture atlas i texture :=
    mkAtlas (atlas_text atlas)
            (alter (fun p => (fst p, Some texture)) i (atlas_pages atlas));
  SkeletonJson_readSkeletonData atlas json := Some (rigData json);
  SkeletonBinary_readSkeletonData atlas bytes :=
    match bytes with
    | [] => None
    | _ => Some (rigData "binary")
    end;
  SkeletonData_findSkin data name :=
    if bool_decide (name ∈ skinNames data) then Some [name] else None;
  SkeletonData_findAnimation data name := findBy name (animations data);
  Animation_duration animation := snd animation;
  Skin_new name := [];
  Skin_addSkin custom skin := custom ++ skin;
  Skeleton_new data := mkSkel data 0 [] 0;
  Skeleton_data skel := skel_data skel;
  Skeleton_setSkin skel skin :=
    mkSkel (skel_data skel) (skel_time skel) skin (skel_world skel);
  Skeleton_setToSetupPose skel :=
    mkSkel (skel_data skel) 0 (skel_skin skel) (skel_world skel);
  Skeleton_updateWorldTransform skel :=
    mkSkel (skel_data skel) (skel_time skel) (skel_skin skel) (skel_time skel);
  Skeleton_getBoundsRect skel :=
    mkRect (0 - 100 * skel_world skel) (-8)
           (16 + 200 * skel_world skel) (32 + skinExtent (skel_skin skel));
  AnimationState_new data := mkState data None 0;
  AnimationState_data state := state_data state;
  AnimationState_clearTracks state := mkState (state_data state) None 0;
  AnimationState_setAnimationWith state track animation loop :=
    mkState (state_data state) (Some animation) 0;
  AnimationState_update state delta :=
    mkState (state_data state) (state_track state) (state_time state + delta);
  AnimationState_apply state skel :=
    (state,
     match state_track state with
     | Some _ => mkSkel (skel_data skel) (state_time state) (skel_skin skel)
                        (skel_world skel)
     | None => skel
     end)
}.

Definition liveObject : SpineGameObject.GameObject :=
  SpineGameObject.mkGameObject SpineGameObject.SetupPoseBoundsProvider false
    (Some (mkSkel (rigData "hero") 0.3 [] 0.3))
    (Some (rigData "hero"))
    (Some (mkState (rigData "hero") (Some ("walk"%string, 0.12%float)) 0.3))
    0 0 0 0.

(** A game object that is not initialised yet. *)
Definition unboundObject : SpineGameObject.GameObject :=
  SpineGameObject.mkGameObject SpineGameObject.SetupPoseBoundsProvider false
    None None None 0 0 0 0.

(** A game whose caches hold two atlases, ["c"] and ["bc"], and two JSON
    skeleton documents, ["ab"] and ["a"]; and a plugin with empty caches. *)
Definition collidingGame : Phaser.Game :=
  Phaser.mkGame ∅
    (<["c"%string := Phaser.AtlasObject (Phaser.Text "c.png") true]>
       (<["bc"%string := Phaser.AtlasObject (Phaser.Text "bc.png") true]> ∅))
    (<["ab"%string := "rig of ab"%string]>
       (<["a"%string := "rig of a"%string]> ∅))
    ∅.

Definition freshPlugin : SpinePlugin.t := SpinePlugin.mk true ∅ ∅.

Definition nl : string := String JS.LF EmptyString.


Definition twoPagePayload : string :=
  String.concat nl ["page1.png"; "size:100,100"; "..."; "";
                    "page2.png"; "..."]%string.

Definition pixels (url : string) : string := "pixels of " +:+ url.

(** The text task of the atlas ["hero"], downloaded from
    ["assets/spine/hero.atlas"] with the payload [text], and its job. *)
Definition heroText (text : string) : Phaser.File :=
  Phaser.mkFile "text" "hero" "assets/spine/hero.atlas"
                "assets/spine/hero.atlas" (Phaser.Text text).

Definition heroJob (text : string) : SpineAtlasFile.t :=
  SpineAtlasFile.mk "hero" [heroText text] 1 0 false true.


End Demo.

(** ** [SpineSkeletonDataFile]: the skeleton load job of [keys.js] *)
Module SpineSkeletonDataFile.
Import Phaser.

Inductive SpineSkeletonDataFileType : Type := json | binary.

(** What a download delivers: the response read as text, and as a raw
    buffer. *)
Record Response : Type := mkResponse {
  responseText : string;
  response : list Byte.byte
}.

(** What a processed file holds: a parsed JSON document (kept as its text)
    or a raw buffer. *)
Inductive Payload : Type :=
| JsonObject (document : string)
| ArrayBuffer (bytes : list Byte.byte).

Record DataFile : Type := mkDataFile {
  data_type : string;
  data_key : string;
  data_url : string;
  data_extension : string;
  data_payload : option Payload
}.

(** [new Phaser.Loader.FileTypes.JSONFile(loader, { key, url, extension: "json" })] *)
Definition JSONFile (key url : string) : DataFile :=
  mkDataFile "json" key url "json" None.

(** [new Phaser.Loader.FileTypes.BinaryFile(loader, { key, url, extension: "skel" })] *)
Definition BinaryFile (key url : string) : DataFile :=
  mkDataFile "binary" key url "skel" None.

Record t : Type := mk {
  key : string;
  files : list DataFile;
  pending : Z;
  failed : Z;
  complete : bool;
  fileType : SpineSkeletonDataFileType
}.

(** The two ways the constructor is called: with positional arguments, or
    with a config object in place of the key. *)
Inductive Args : Type :=
| Positional (key url : string) (fileType : SpineSkeletonDataFileType)
| Config (key url type : string).

(** [constructor(loader, key, url, fileType, xhrSettings)] *)
Definition new (args : Args) : t :=
  let '(key, url, fileType) :=
    match args with
    | Positional key url fileType => (key, url, fileType)
    | Config key url type =>
        (key, url, if String.eqb type "spineJson" then json else binary)
    end in
  let isJson := match fileType with json => true | binary => false end in
  let file := if isJson then JSONFile key url else BinaryFile key url in
  mk key [file] 1 0 false fileType.

(** [onFileComplete(file)]: the job counts every completion it is told of. *)
Definition onFileComplete (this : t) (file : DataFile) : t :=
  mk (key this) (files this) (pending this - 1) (failed this) (complete this)
     (fileType this).

Definition isReadyToProcess (this : t) : bool :=
  (pending this =? 0) && (failed this =? 0) && negb (complete this).

(** Modelled from the spec: [onProcess] of the host's JSON and binary file
    types, which is engine code outside this repository: the task decodes
    either as JSON text (parsed into an object) or as a raw binary buffer,
    and it is the file's own type that says which. *)
Definition DataFile_onProcess (file : DataFile) (r : Response) : DataFile :=
  mkDataFile (data_type file) (data_key file) (data_url file)
             (data_extension file)
             (Some (if String.eqb (data_type file) "json"
                    then JsonObject (responseText r)
                    else ArrayBuffer (response r))).

(** Modelled from the spec: [file.addToCache()] of the host's JSON and
    binary file types, which is engine code outside this repository: a file
    installs what it holds into the cache of its own type (JSON or binary)
    under its key; a file that holds nothing of its kind installs
    nothing. *)
Definition DataFile_addToCache (g : Game) (file : DataFile) : Game :=
  if String.eqb (data_type file) "json" then
    match data_payload file with
    | Some (JsonObject document) =>
        mkGame (textures g) (cache_text g)
               (<[data_key file := document]> (cache_json g)) (cache_binary g)
    | _ => g
    end
  else
    match data_payload file with
    | Some (ArrayBuffer bytes) =>
        mkGame (textures g) (cache_text g) (cache_json g)
               (<[data_key file := bytes]> (cache_binary g))
    | _ => g
    end.

(** [addToCache()]; [None] is a thrown [TypeError] (no [files[0]]). *)
Definition addToCache (g : Game) (this : t) : option Game :=
  if isReadyToProcess this then
    file ← files this !! 0%nat;
    Some (DataFile_addToCache g file)
  else Some g.

(** Modelled from the spec: the host's file-download subsystem driving one
    skeleton job: the job is created, the response for its single file
    arrives and the file processes it, the job is told, and is installed
    into the caches. *)
Definition load (g : Game) (args : Args) (r : Response) : option Game :=
  let this := new args in
  file ← files this !! 0%nat;
  let file := DataFile_onProcess file r in
  let this := mk (key this) (<[0%nat := file]> (files this)) (pending this)
                 (failed this) (complete this) (fileType this) in
  addToCache g (onFileComplete this file).

End SpineSkeletonDataFile.

(** ** The loader's table, read as a set of task identities *)
Module Tasks.
Import Phaser.

(** Two tasks are the same task when their type and key agree. *)
Definition task_id (f : File) : string * string := (file_type f, file_key f).

Definition known (l : Loader) : list (string * string) := map task_id (queue l).

(** A key in which the separator of image keys does not occur. *)
Definition noBang (s : string) : Prop :=
  JS.all_chars (fun ch => negb (Ascii.eqb ch "!"%char)) s = true.

(** The lines of an atlas text name [page] as a page image: [page] is
    line 0, or it is the line after a blank line that is not line 0. *)
Definition namesPage (lines : list string) (page : string) : Prop :=
  (exists rest, lines = page :: rest)
  \/ (exists first pre blank post,
        JS.trim_is_empty blank = true
        /\ lines = first :: pre ++ blank :: page :: post).

End Tasks.

(** ** [SpineGameObject.js]: construction and rendering *)
Module Rendering.
Import Spine SpineGameObject.

(** [ToInt32] on an integer-valued number, and [a & b]. *)
Definition ToInt32 (n : Z) : Z := (n + 2 ^ 31) mod 2 ^ 32 - 2 ^ 31.

Definition bitand (a b : Z) : Z := Z.land (ToInt32 a) (ToInt32 b).

(** The fields of the game object that [willRender] reads besides the
    skeleton; render flags, camera filters and camera ids are integers. *)
Record RenderFields : Type := mkRenderFields {
  visible : bool;
  renderFlags : Z;
  cameraFilter : Z
}.

(** [willRender(camera)] *)
Definition willRender {RT : Runtime} (this : GameObject) (fields : RenderFields)
    (camera_id : Z) : bool :=
  if negb (visible fields) then false
  else
    let GameObjectRenderMask := 15 in
    let noSkeleton := match skeleton this with Some _ => false | None => true end in
    noSkeleton
    || negb (negb (GameObjectRenderMask =? renderFlags fields)
             || (negb (cameraFilter fields =? 0)
                 && negb (bitand (cameraFilter fields) camera_id =? 0))).

(** *** The vertex callback of [renderWebGL]

    The scene renderer hands the callback a typed array of numbers: a read
    past its end gives [undefined], which the arithmetic turns into NaN,
    and a write past its end is dropped.  [store] is what storing a number
    into the array does to it (the rounding of the array's element type). *)
Definition readVertex (vertices : list float) (i : nat) : float :=
  default PrimFloat.nan (vertices !! i).

(** [for (let i = 0; i < numVertices; i += stride) { ... }]; [None] means
    the fuel ran out before the loop condition failed. *)
Fixpoint transformVertices (store : float -> float) (fuel : nat)
    (transform : TransformMatrix float) (numVertices stride : nat) (i : nat)
    (vertices : list float) : option (list float) :=
  if (i <? numVertices)%nat then
    match fuel with
    | O => None
    | S fuel' =>
        let vx := readVertex vertices i in
        let vy := readVertex vertices (i + 1) in
        let vertices :=
          <[i := store (vx * a transform + vy * c transform + tx transform)%float]>
            vertices in
        let vertices :=
          <[(i + 1)%nat :=
              store (vx * b transform + vy * d transform + ty transform)%float]>
            vertices in
        transformVertices store fuel' transform numVertices stride
                          (i + stride)%nat vertices
    end
  else Some vertices.

(** One vertex of the array: its position and the other [stride - 2]
    numbers that travel with it. *)
Record Vertex : Type := mkVertex {
  vertex_x : float;
  vertex_y : float;
  vertex_rest : list float
}.

Definition vertex_floats (v : Vertex) : list float :=
  vertex_x v :: vertex_y v :: vertex_rest v.

(** A vertex moved by the affine map of [skeletonToPhaserWorldCoordinates]
    and stored back. *)
Definition moved (store : float -> float) (transform : TransformMatrix float)
    (v : Vertex) : Vertex :=
  let p := skeletonToPhaserWorldCoordinates transform
             (mkPoint (vertex_x v) (vertex_y v)) in
  mkVertex (store (px p)) (store (py p)) (vertex_rest v).

(** [new AnimationStateData(skeletonData)], the one further runtime call the
    constructor makes. *)
Class StateDataRuntime {RT : Runtime} : Type := {
  AnimationStateData_new : SkeletonData -> AnimationStateData
}.

Section Construction.
Context {RT : Runtime} {SD : StateDataRuntime}.

(** [new SpineGameObject(scene, plugin, x, y, dataKey, atlasKey,
    boundsProvider = new SetupPoseBoundsProvider())]; [None] is a thrown
    error or a sampling loop that outruns [fuel].  An [undefined] answer of
    [isAtlasPremultiplied] is kept as [false]: the field is only ever tested
    for truth.  The size fields start at zero and are set by [updateSize]. *)
Definition constructor (fuel : nat) (g : Phaser.Game) (plugin : SpinePlugin.t)
    (dataKey atlasKey : string) (boundsProvider : option BoundsProvider)
    : option (GameObject * SpinePlugin.t) :=
  let provider := default SetupPoseBoundsProvider boundsProvider in
  let premultipliedAlpha :=
    default false (SpinePlugin.isAtlasPremultiplied g atlasKey) in
  '(skeleton, plugin) ← SpinePlugin.createSkeleton g plugin dataKey atlasKey;
  let animationStateData := AnimationStateData_new (Skeleton_data skeleton) in
  let animationState := AnimationState_new animationStateData in
  let skeleton := Skeleton_updateWorldTransform skeleton in
  this ← updateSize fuel
           (mkGameObject provider premultipliedAlpha (Some skeleton)
              (Some animationStateData) (Some animationState) 0 0 0 0);
  Some (this, plugin).

End Construction.

End Rendering.

(** ** Representative transforms for the coordinate helpers *)
Module RoundTrip.
Import SpineGameObject.

(** An integer as a JavaScript number. *)
Definition number_of_Z (z : Z) : float :=
  match z with
  | Z0 => 0%float
  | Zpos _ => PrimFloat.of_uint63 (Uint63.of_Z z)
  | Zneg p => (- PrimFloat.of_uint63 (Uint63.of_Z (Zpos p)))%float
  end.

(** Cosine and sine of [q] quarter turns. *)
Definition quarterTurn (q : Z) : Z * Z :=
  match q mod 4 with
  | 0 => (1, 0)
  | 1 => (0, 1)
  | 2 => (-1, 0)
  | _ => (0, -1)
  end.

(** The world transform of an object rotated by [q] quarter turns, scaled
    by [2 ^ k] and placed at [(tx, ty)]: [a = cos * s], [b = sin * s],
    [c = - sin * s], [d = cos * s]. *)
Definition similarity (q k tx ty : Z) : TransformMatrix float :=
  let s := Z.ldexp 1%float k in
  let co := number_of_Z (fst (quarterTurn q)) in
  let si := number_of_Z (snd (quarterTurn q)) in
  mkMatrix (co * s)%float (si * s)%float (- si * s)%float (co * s)%float
           (number_of_Z tx) (number_of_Z ty).


(** To world coordinates and back. *)
Definition roundTrip (m : TransformMatrix float) (p : Point float)
    : Point float :=
  phaserWorldCoordinatesToSkeleton m (skeletonToPhaserWorldCoordinates m p).

(** [p.x === q.x && p.y === q.y] *)
Definition same_point (p q : Point float) : bool :=
  PrimFloat.eqb (px p) (px q) && PrimFloat.eqb (py p) (py q).



End RoundTrip.

(** ** More concrete inputs *)
Module DemoMore.
Import Spine.

#[global] Instance stateData : Rendering.StateDataRuntime (RT := Demo.runtime) := {
  AnimationStateData_new data := data
}.

(** A game with the atlas ["hero"] and the JSON skeleton ["hero-data"]
    loaded. *)
Definition heroGame : Phaser.Game :=
  Phaser.mkGame ∅
    (<["hero"%string := Phaser.AtlasObject (Phaser.Text "hero.png") false]> ∅)
    (<["hero-data"%string := "rig of hero"%string]> ∅)
    ∅.

(** Two vertices of four numbers each (position, then two more numbers). *)
Definition quad : list Rendering.Vertex :=
  [ Rendering.mkVertex 1%float 2%float [0.5%float; 0.25%float];
    Rendering.mkVertex 3%float 4%float [0.75%float; 1%float] ].

(** The loader and the job of [Demo.heroJob Demo.twoPagePayload] after its
    text task has completed on an empty loader. *)
Definition page1 : Phaser.File :=
  Phaser.ImageFile "hero!page1.png" "assets/spine/page1.png".

Definition page2 : Phaser.File :=
  Phaser.ImageFile "hero!page2.png" "assets/spine/page2.png".

Definition pagedLoader : Phaser.Loader := Phaser.mkLoader Phaser.emptyGame [page1; page2].

Definition pagedJob : SpineAtlasFile.t :=
  SpineAtlasFile.mk "hero" [Demo.heroText Demo.twoPagePayload; page1; page2]
                    2 0 false true.

(** The same job once both page images have arrived. *)
Definition arrived (f : Phaser.File) : Phaser.File :=
  Loading.loaded (Phaser.file_url f) (Phaser.ImageData (Demo.pixels (Phaser.file_url f))) f.

Definition readyJob : SpineAtlasFile.t :=
  SpineAtlasFile.mk "hero"
    [Demo.heroText Demo.twoPagePayload; arrived page1; arrived page2]
    0 0 false true.

(** A loader whose texture manager already holds a texture under the key
    of the first page image. *)
Definition texturedLoader : Phaser.Loader :=
  Phaser.mkLoader
    (Phaser.mkGame (<["hero!page1.png"%string := Phaser.ImageData "earlier"]> ∅)
                   ∅ ∅ ∅)
    [].

(** The atlas ["hero"] fetched from a source without a directory. *)
Definition bareText : Phaser.File :=
  Phaser.mkFile "text" "hero" "hero.atlas" "hero.atlas"
                (Phaser.Text Demo.twoPagePayload).

Definition bareJob : SpineAtlasFile.t :=
  SpineAtlasFile.mk "hero" [bareText] 1 0 false true.

Definition barePage1 : Phaser.File :=
  Phaser.ImageFile "hero!page1.png" "nullpage1.png".

Definition barePage2 : Phaser.File :=
  Phaser.ImageFile "hero!page2.png" "nullpage2.png".

(** Two atlases whose composed image keys collide: the atlas ["a"] names
    the pages ["c.png"] and ["b!c.png"], the atlas ["a!b"] the page
    ["c.png"]. *)
Definition bangPayload : string :=
  String.concat Demo.nl ["c.png"; "size:8,8"; ""; "b!c.png"; "size:8,8"]%string.

Definition plainPayload : string :=
  String.concat Demo.nl ["c.png"; "size:8,8"]%string.

(** An atlas text that names the page ["page1.png"] twice, its text task
    once downloaded, and its job. *)
Definition repeatedPayload : string :=
  String.concat Demo.nl ["page1.png"; "size:8,8"; "  "; "page1.png"; "size:8,8"]%string.

Definition repeatedText : Phaser.File := Demo.heroText repeatedPayload.

Definition repeatedJob : SpineAtlasFile.t := Demo.heroJob repeatedPayload.

(** The rig of [Demo.liveObject] at rest: the same data, another pose. *)
Definition restObject : SpineGameObject.GameObject :=
  SpineGameObject.mkGameObject SpineGameObject.SetupPoseBoundsProvider false
    (Some (Demo.mkSkel (Demo.rigData "hero") 0 [] 0))
    (Some (Demo.rigData "hero"))
    (Some (Demo.mkState (Demo.rigData "hero") None 0))
    0 0 0 0.

End DemoMore.

(** * Theorems *)

(** ** The atlas job: installing into the caches *)
Section AtlasCache.
Import Phaser SpineAtlasFile.

(** Image tasks never touch the text cache and cannot make the pass fail. *)
Lemma cacheFile_images pma images g done :
  Forall is_image images ->
  exists g',
    fold_left (cacheFile pma) images (Some (g, done)) = Some (g', done ++ images)
    /\ cache_text g' = cache_text g.
Proof.
  intros Himg. revert g done.
  induction Himg as [|f fs Hf _ IH]; intros g done; simpl.
  - exists g. by rewrite app_nil_r.
  - unfold is_image in Hf. rewrite Hf. simpl.
    destruct (negb (textureManager_exists g (file_key f))).
    + destruct (IH (textureManager_addImage g (file_key f) (file_data f))
                   (done ++ [f])) as (g' & -> & Hc).
      exists g'. by rewrite <- app_assoc.
    + destruct (IH g (done ++ [f])) as (g' & -> & Hc).
      exists g'. by rewrite <- app_assoc.
Qed.

Lemma resolve_premultipliedAlpha_text explicit s :
  resolve_premultipliedAlpha explicit (Text s)
  = Some (explicit || (0 <=? JS.indexOf s "pma: true")).
Proof. by destruct explicit. Qed.

(** C1 (as amended): when a ready atlas job (its text task followed by its
    page-image tasks) is installed, the flag stored with the atlas text in
    the text cache, and reported by [isAtlasPremultiplied], is the
    disjunction of the job's flag and the presence of the marker
    ["pma: true"] in the text: an explicit [true] always gives [true], and
    an explicit [false] gives [true] exactly when the text carries the
    marker. *)
Theorem addToCache_premultipliedAlpha
    (loader : Loader) (this : t) (text : File) (images : list File) (s : string) :
  files this = text :: images ->
  file_type text = "text"%string ->
  file_data text = Text s ->
  Forall is_image images ->
  isReadyToProcess this = true ->
  exists loader' this',
    addToCache loader this = Some (loader', this')
    /\ cache_text (game loader') !! file_key text
       = Some (AtlasObject (Text s)
                 (premultipliedAlpha this || (0 <=? JS.indexOf s "pma: true")))
    /\ SpinePlugin.isAtlasPremultiplied (game loader') (file_key text)
       = Some (premultipliedAlpha this || (0 <=? JS.indexOf s "pma: true")).
Proof.
  intros Hfiles Htype Hdata Himg Hready.
  unfold addToCache. rewrite Hready, Hfiles. simpl.
  rewrite Htype, Hdata. simpl.
  rewrite resolve_premultipliedAlpha_text. simpl.
  match goal with
  | |- context [fold_left _ images (Some (?g0, ?d0))] =>
      destruct (cacheFile_images (premultipliedAlpha this) images g0 d0 Himg)
        as (g' & -> & Hc)
  end.
  simpl. eexists _, _. split; [reflexivity|].
  unfold SpinePlugin.isAtlasPremultiplied. simpl.
  rewrite Hc. simpl. rewrite lookup_insert_eq. done.
Qed.

Lemma addToCache_premultipliedAlpha_witness :
  exists loader' this',
    addToCache emptyLoader
      (mk "hero" [mkFile "text" "hero" "hero.atlas" "hero.atlas" (Text "a.png")]
          0 0 false true)
    = Some (loader', this')
    /\ cache_text (game loader') !! "hero"%string
       = Some (AtlasObject (Text "a.png") (true || (0 <=? JS.indexOf "a.png" "pma: true")))
    /\ SpinePlugin.isAtlasPremultiplied (game loader') "hero"
       = Some (true || (0 <=? JS.indexOf "a.png" "pma: true")).
Proof.
  apply (addToCache_premultipliedAlpha emptyLoader
           (mk "hero" [mkFile "text" "hero" "hero.atlas" "hero.atlas" (Text "a.png")]
               0 0 false true)
           (mkFile "text" "hero" "hero.atlas" "hero.atlas" (Text "a.png")) [] "a.png");
    [reflexivity | reflexivity | reflexivity | constructor | reflexivity].
Defined.

(** C1 (counterexample): an atlas loaded with an explicit
    [premultipliedAlpha = false] whose text contains ["pma: true"] is
    cached with the flag [true]. *)
Lemma explicit_false_is_overridden :
  (Loading.loadAtlas Demo.pixels emptyLoader "hero" "assets/hero.atlas"
     (Some false) (Demo.twoPagePayload +:+ Demo.nl +:+ "pma: true")
   ≫= fun st => SpinePlugin.isAtlasPremultiplied (game (fst st)) "hero")
  = Some true.
Proof. vm_compute. reflexivity. Qed.

End AtlasCache.

(** ** The atlas job: discovering the page images *)
Section AtlasPages.
Import Phaser SpineAtlasFile.

Lemma string_length_app s t :
  String.length (s +:+ t) = (String.length s + String.length t)%nat.
Proof. induction s as [|ch s IH]; simpl; [done | by rewrite IH]. Qed.

Lemma string_app_inj_r t s1 s2 : s1 +:+ t = s2 +:+ t -> s1 = s2.
Proof.
  revert s2. induction s1 as [|ch s1 IH]; intros [|ch' s2] Heq.
  - done.
  - apply (f_equal String.length) in Heq.
    rewrite !string_length_app in Heq. simpl in Heq. lia.
  - apply (f_equal String.length) in Heq.
    rewrite !string_length_app in Heq. simpl in Heq. lia.
  - cbn [String.append] in Heq. injection Heq as -> Heq. f_equal. by apply IH.
Qed.

(** The loop over [t] from position [length pre] on, with the lines already
  passed in [pre]. *)
Lemma textures_loop pre suf acc :
  fold_left
    (fun textures t =>
       let line := nth t (pre ++ suf) EmptyString in
       if JS.trim_is_empty line && (t <? length (pre ++ suf) - 1)%nat
       then textures ++ [nth (t + 1) (pre ++ suf) EmptyString]
       else textures)
    (seq (length pre) (length suf)) acc
  = acc ++ pagesAfter suf.
Proof.
  revert pre acc. induction suf as [|line rest IH]; intros pre acc.
  - simpl. by rewrite app_nil_r.
  - cbn [length seq fold_left].
    replace (pre ++ line :: rest) with ((pre ++ [line]) ++ rest)
      by (by rewrite <- app_assoc).
    replace (S (length pre)) with (length (pre ++ [line]))
      by (rewrite length_app; simpl; lia).
    rewrite IH. clear IH.
    rewrite <- app_assoc. cbn [app].
    rewrite app_nth2 by lia. rewrite Nat.sub_diag. cbn [nth].
    destruct rest as [|next rest].
    + cbn [pagesAfter].
      replace (length pre <? length (pre ++ [line]) - 1)%nat with false.
      * rewrite andb_false_r. by rewrite !app_nil_r.
      * symmetry. apply Nat.ltb_ge. rewrite length_app. simpl. lia.
    + cbn [pagesAfter].
      replace (length pre <? length (pre ++ line :: next :: rest) - 1)%nat with true.
      * rewrite andb_true_r.
        destruct (JS.trim_is_empty line); [|done].
        rewrite app_nth2 by lia.
        replace (length pre + 1 - length pre)%nat with 1%nat by lia.
        cbn [nth]. by rewrite <- app_assoc.
      * symmetry. apply Nat.ltb_lt. rewrite length_app. simpl. lia.
Qed.

(** [textures_of] is line 0 followed by the lines after blank lines. *)
Lemma textures_of_pagesAfter first rest :
  textures_of (first :: rest) = first :: pagesAfter rest.
Proof.
  unfold textures_of.
  replace (seq 1 (length (first :: rest) - 1))
    with (seq (length [first]) (length rest))
    by (simpl; by rewrite Nat.sub_0_r).
  exact (textures_loop [first] rest [first]).
Qed.





Lemma pagesAfter_blank next rest :
  pagesAfter (EmptyString :: next :: rest) = next :: pagesAfter (next :: rest).
Proof. reflexivity. Qed.

(** A blank line directly after the first page name makes the line after it
    a page name too, whatever follows. *)
Lemma blank_after_page_name page entry rest :
  textures_of (page :: EmptyString :: entry :: rest)
  = page :: entry :: pagesAfter (entry :: rest).
Proof. by rewrite textures_of_pagesAfter, pagesAfter_blank. Qed.


End AtlasPages.

Section AtlasTasks.
Import Phaser SpineAtlasFile.

Lemma string_app_cons ch s t : String ch s +:+ t = String ch (s +:+ t).
Proof. reflexivity. Qed.

Lemma string_app_assoc s t u : (s +:+ t) +:+ u = s +:+ t +:+ u.
Proof.
  induction s as [|ch s IH]; [done|]. rewrite !string_app_cons. by rewrite IH.
Qed.

Lemma match_base_path_no_slash name :
  noSlash name -> JS.match_base_path name = None.
Proof.
  unfold noSlash. induction name as [|ch name IH]; [done|].
  cbn [JS.all_chars JS.match_base_path]. intros [Hch Hname]%andb_prop.
  destruct (JS.isLineTerminator ch); [done|].
  rewrite (IH Hname). by destruct (Ascii.eqb ch "/").
Qed.

Lemma match_base_path_prefix dir rest p :
  singleLine dir -> JS.match_base_path rest = Some p ->
  JS.match_base_path (dir +:+ rest) = Some (dir +:+ p).
Proof.
  unfold singleLine. intros Hdir Hrest.
  induction dir as [|ch dir IH]; [done|].
  cbn [JS.all_chars] in Hdir. apply andb_prop in Hdir as [Hch Hdir].
  rewrite !string_app_cons. cbn [JS.match_base_path].
  destruct (JS.isLineTerminator ch); [done|].
  by rewrite (IH Hdir).
Qed.

(** The base path of [dir/name] is [dir/]: everything up to and including
  the last slash. *)
Lemma match_base_path_last_slash dir name :
  singleLine dir -> noSlash name ->
  JS.match_base_path (dir +:+ "/" +:+ name) = Some (dir +:+ "/").
Proof.
  intros Hdir Hname. apply match_base_path_prefix; [done|].
  change ("/" +:+ name) with (String "/" name). cbn [JS.match_base_path].
  change (JS.isLineTerminator "/") with false. cbn iota.
  by rewrite (match_base_path_no_slash name Hname).
Qed.

Lemma imageKey_inj fileKey texture1 texture2 :
  imageKey fileKey texture1 = imageKey fileKey texture2 -> texture1 = texture2.
Proof.
  unfold imageKey. intros Heq.
  apply (inj (String.append fileKey)) in Heq.
  by apply (inj (String.append "!")) in Heq.
Qed.

Lemma imageKey_atlas_inj fileKey1 fileKey2 texture :
  imageKey fileKey1 texture = imageKey fileKey2 texture -> fileKey1 = fileKey2.
Proof. unfold imageKey. apply string_app_inj_r. Qed.

Lemma same_task_pageImage fileKey1 fileKey2 base1 base2 texture1 texture2 :
  same_task (pageImage fileKey1 base1 texture1) (pageImage fileKey2 base2 texture2)
  = String.eqb (imageKey fileKey1 texture1) (imageKey fileKey2 texture2).
Proof. reflexivity. Qed.

Lemma keyExists_addFile loader file other :
  keyExists (addFile loader file) other
  = keyExists loader other || (negb (keyExists loader file) && same_task other file).
Proof.
  unfold addFile. destruct (keyExists loader file) eqn:E; simpl.
  - by rewrite orb_false_r.
  - unfold keyExists; simpl. rewrite existsb_app. simpl. by rewrite orb_false_r.
Qed.



End AtlasTasks.

Section AtlasExamples.
Import Phaser SpineAtlasFile.



End AtlasExamples.

(** ** The steps of loading an atlas *)
Section AtlasLoadSteps.
Import Phaser SpineAtlasFile Loading.

Lemma same_task_image_text key1 url1 key2 url2 :
  same_task (ImageFile key1 url1) (TextFile key2 url2) = false.
Proof. reflexivity. Qed.

Lemma textureManager_exists_addImage g key d other :
  textureManager_exists (textureManager_addImage g key d) other
  = bool_decide (key = other) || textureManager_exists g other.
Proof.
  unfold textureManager_exists, textureManager_addImage. cbn [textures].
  destruct (decide (key = other)) as [->|Hne].
  - rewrite lookup_insert_eq.
  rewrite (bool_decide_eq_true_2 (other = other)) by done.
  apply bool_decide_eq_true_2. eauto.
  - rewrite lookup_insert_ne by done.
  by rewrite (bool_decide_eq_false_2 (key = other)).
Qed.

(** The text task finishes: the job counts it and scans the text. *)
Lemma completeFile_text_task src text loader key key' url rest n nf cpl pma :
  completeFile src (Text text) 0
  (loader, mk key (TextFile key' url :: rest) n nf cpl pma)
  = Some (fold_left (addPageImage key' (JS.match_base_path src))
          (textures_of (JS.split_lines text))
          (loader,
           mk key (mkFile "text" key' url src (Text text) :: rest)
              (n - 1) nf cpl pma)).
Proof.
  unfold completeFile. cbn [files lookup list_lookup mbind option_bind].
  unfold onFileComplete.
  rewrite bool_decide_eq_true_2 by (apply list_elem_of_here).
  reflexivity.
Qed.

(** An image task finishes: the job only counts it. *)
Lemma completeFile_image_task src d i loader this file :
  files this !! i = Some file ->
  is_image file ->
  completeFile src d i (loader, this)
  = Some (loader,
        mk (key this) (<[i := loaded src d file]> (files this))
           (pending this - 1) (failed this) (complete this)
           (premultipliedAlpha this)).
Proof.
  intros Hi Himg. unfold completeFile. rewrite Hi.
  cbn [mbind option_bind]. unfold onFileComplete.
  rewrite bool_decide_eq_true_2.
  - unfold is_image in Himg. cbn [loaded file_type]. rewrite Himg. reflexivity.
  - cbn [set_files files]. apply list_elem_of_lookup. exists i.
  apply list_lookup_insert_eq. by apply lookup_lt_Some in Hi.
Qed.

End AtlasLoadSteps.

(** ** The bounds providers *)
Section Bounds.
Import Spine SpineGameObject BoundsSpec.
Context {RT : Runtime}.

Lemma accumulate_foldSample acc sample : accumulate acc sample = foldSample acc sample.
Proof. reflexivity. Qed.

(** The loop makes one pass per value of the counter below [steps], and
  folds the samples in order. *)
Lemma sampleLoop_passes m :
  forall fuel i steps timeStep state skel acc,
    (forall k, (k < m)%nat -> PrimFloat.ltb (JS.counter (i + k)) steps = true) ->
    PrimFloat.ltb (JS.counter (i + m)) steps = false ->
    (m <= fuel)%nat ->
    sampleLoop fuel i steps timeStep state skel acc
    = Some (fold_left foldSample
              (sampleRects m (negb (0 <? i)%nat) timeStep state skel) acc).
Proof.
  induction m as [|m IH]; intros fuel i steps timeStep state skel acc Hlt Hge Hfuel.
  - rewrite Nat.add_0_r in Hge.
    destruct fuel; cbn [sampleLoop]; by rewrite Hge.
  - destruct fuel as [|fuel]; [lia|].
    cbn [sampleLoop sampleRects].
    rewrite <- (Nat.add_0_r i) at 1. rewrite (Hlt 0%nat) by lia.
    replace (if negb (0 <? i)%nat then 0%float else timeStep)
      with (if (0 <? i)%nat then timeStep else 0%float)
      by (by destruct (0 <? i)%nat).
    destruct (AnimationState_apply _ skel) as [state' skel'].
    cbn [fold_left]. rewrite accumulate_foldSample.
    apply (IH fuel (S i)).
    + intros k Hk. replace (S i + k)%nat with (i + S k)%nat by lia.
      apply Hlt. lia.
    + by replace (S i + m)%nat with (i + S m)%nat by lia.
    + lia.
Qed.

(** The number of passes is determined by [steps]. *)
Lemma passes_unique s n m : passes s n -> passes s m -> n = m.
Proof.
  intros [Hn Hn'] [Hm Hm'].
  destruct (Nat.lt_trichotomy n m) as [Hlt | [Heq | Hgt]]; [|done|].
  - rewrite (Hm n Hlt) in Hn'. discriminate.
  - rewrite (Hn m Hgt) in Hm'. discriminate.
Qed.

(** C3: with an animation found in the data, the provider samples the
  animation once per value [0, 1, 2, ...] of the loop counter below
  [steps = max(duration / timeStep, 1)], advancing the animation state by
  zero for the first sample and by [timeStep] for every later one; it
  folds each sample with [minX = min(minX, x)], [minY = min(minY, y)],
  [maxX = max(maxX, minX + width)], [maxY = max(maxY, minY + height)]
  (the max corner taken from the running min corner) and returns
  [{minX, minY, maxX - minX, maxY - minY}], or the all-zero rectangle when
  that width is negative infinity. *)
Theorem sampling_loop_bounds
    (fuel : nat) (name : string) (skins : list string) (timeStep : float)
    (gameObject : GameObject) (liveSkeleton : Skeleton)
    (liveState : AnimationState) (animation : Animation) (n : nat) :
  skeleton gameObject = Some liveSkeleton ->
  animationState gameObject = Some liveState ->
  SkeletonData_findAnimation
    (Skeleton_data (Skeleton_new (Skeleton_data liveSkeleton))) name
  = Some animation ->
  passes (steps animation timeStep) n ->
  (n <= fuel)%nat ->
  SkinsAndAnimation_calculateBounds fuel (Some name) skins timeStep gameObject
  = Some (finalRect
            (fold_left foldSample
               (sampleRects n true timeStep
                  (sampledState liveState animation)
                  (sampledSkeleton liveSkeleton skins))
               initialCorners)).
Proof.
  intros Hskel Hstate Hfind [Hlt Hge] Hfuel.
  unfold SkinsAndAnimation_calculateBounds.
  rewrite Hskel, Hstate, Hfind.
  fold (steps animation timeStep).
  rewrite (sampleLoop_passes n) by done.
  reflexivity.
Qed.

(** C4: for a game object whose animation state is bound, the sampling
  provider with [animation = null] and no skin names returns the very
  rectangle of the setup-pose provider. *)
Theorem null_animation_is_setup_pose
    (fuel : nat) (timeStep : float) (gameObject : GameObject) :
  is_Some (animationState gameObject) ->
  SkinsAndAnimation_calculateBounds fuel None [] timeStep gameObject
  = Some (SetupPose_calculateBounds gameObject).
Proof.
  intros [liveState Hstate].
  unfold SkinsAndAnimation_calculateBounds, SetupPose_calculateBounds.
  rewrite Hstate. by destruct (skeleton gameObject).
Qed.

(** Both providers measure the setup pose of a fresh skeleton; they differ
    only in the skin bound to it. *)
Lemma setup_pose_bounds (gameObject : GameObject) (liveSkeleton : Skeleton) :
  skeleton gameObject = Some liveSkeleton ->
  SetupPose_calculateBounds gameObject
  = collapse (Skeleton_getBoundsRect
                (Skeleton_updateWorldTransform (sampledSkeleton liveSkeleton []))).
Proof. intros Hskel. unfold SetupPose_calculateBounds. by rewrite Hskel. Qed.

Lemma null_animation_bounds (fuel : nat) (skins : list string) (timeStep : float)
    (gameObject : GameObject) (liveSkeleton : Skeleton) :
  skeleton gameObject = Some liveSkeleton ->
  is_Some (animationState gameObject) ->
  SkinsAndAnimation_calculateBounds fuel None skins timeStep gameObject
  = Some (collapse (Skeleton_getBoundsRect
                      (Skeleton_updateWorldTransform
                         (sampledSkeleton liveSkeleton skins)))).
Proof.
  intros Hskel [liveState Hstate]. unfold SkinsAndAnimation_calculateBounds.
  by rewrite Hskel, Hstate.
Qed.

(** C7: without a bound skeleton both providers return the all-zero
  rectangle, and so does the sampling provider when no animation state is
  bound. *)
Theorem unbound_bounds_are_zero
    (fuel : nat) (animation : option string) (skins : list string)
    (timeStep : float) (gameObject : GameObject) :
  skeleton gameObject = None \/ animationState gameObject = None ->
  SkinsAndAnimation_calculateBounds fuel animation skins timeStep gameObject
  = Some (mkRect 0 0 0 0)
  /\ (skeleton gameObject = None ->
      SetupPose_calculateBounds gameObject = mkRect 0 0 0 0).
Proof.
  intros Hunbound. split.
  - unfold SkinsAndAnimation_calculateBounds.
    destruct Hunbound as [-> | ->]; [done|].
    by destruct (skeleton gameObject).
  - intros Hskel. unfold SetupPose_calculateBounds. by rewrite Hskel.
Qed.

(** C10: a non-null animation name that the skeleton data does not know is
    treated like [animation = null].  For a bound object the call returns,
    whatever the fuel, the rectangle of one sample of the setup pose: a
    fresh skeleton of the live skeleton's data, with the custom skin bound
    when skin names are given, set to its setup pose, its world transforms
    computed, no animation applied; the rectangle is all zero when its
    width is negative infinity.  This is the very result of
    [animation = null]. *)
Theorem unknown_animation_is_setup_pose
    (fuel : nat) (name : string) (skins : list string) (timeStep : float)
    (gameObject : GameObject) (liveSkeleton : Skeleton) :
  skeleton gameObject = Some liveSkeleton ->
  is_Some (animationState gameObject) ->
  SkeletonData_findAnimation
    (Skeleton_data (Skeleton_new (Skeleton_data liveSkeleton))) name = None ->
  let fresh := Skeleton_new (Skeleton_data liveSkeleton) in
  let skinned :=
    match skins with
    | [] => fresh
    | _ => Skeleton_setSkin fresh (combineSkins (Skeleton_data fresh) skins)
    end in
  let bounds :=
    Skeleton_getBoundsRect
      (Skeleton_updateWorldTransform (Skeleton_setToSetupPose skinned)) in
  SkinsAndAnimation_calculateBounds fuel (Some name) skins timeStep gameObject
  = Some (if PrimFloat.eqb (width bounds) neg_infinity
          then mkRect 0 0 0 0 else bounds)
  /\ SkinsAndAnimation_calculateBounds fuel (Some name) skins timeStep gameObject
     = SkinsAndAnimation_calculateBounds fuel None skins timeStep gameObject.
Proof.
  intros Hskel [liveState Hstate] Hunknown fresh skinned bounds.
  unfold SkinsAndAnimation_calculateBounds.
  rewrite Hskel, Hstate, Hunknown.
  split; [|reflexivity].
  subst bounds skinned fresh. unfold collapse, zeroRect, JS.NEGATIVE_INFINITY.
  by destruct skins.
Qed.

End Bounds.

(** The providers on the demo rig. *)
Section BoundsExamples.
Import Spine SpineGameObject BoundsSpec.

Lemma sampling_loop_bounds_witness :
  SkinsAndAnimation_calculateBounds (RT := Demo.runtime) 5 (Some "walk"%string)
    [] 0.05 Demo.liveObject
  = Some (mkRect (-10) (-8) 36 32).
Proof.
  rewrite (sampling_loop_bounds (RT := Demo.runtime) 5 "walk" [] 0.05
             Demo.liveObject
             (Demo.mkSkel (Demo.rigData "hero") 0.3 [] 0.3)
             (Demo.mkState (Demo.rigData "hero") (Some ("walk"%string, 0.12%float)) 0.3)
             ("walk"%string, 0.12%float) 3).
  - vm_compute. reflexivity.
  - reflexivity.
  - reflexivity.
  - reflexivity.
  - split.
    + intros k Hk. destruct k as [|[|[|k]]]; [reflexivity | reflexivity | reflexivity | lia].
    + reflexivity.
  - lia.
Defined.

Lemma null_animation_is_setup_pose_witness :
  SkinsAndAnimation_calculateBounds (RT := Demo.runtime) 0 None [] 0.05
    Demo.liveObject
  = Some (SetupPose_calculateBounds Demo.liveObject).
Proof.
  apply (null_animation_is_setup_pose (RT := Demo.runtime) 0 0.05 Demo.liveObject).
  simpl. eauto.
Defined.

(** With skin names the sampling provider binds a custom skin, which the
    setup-pose provider never does: on the demo rig the rectangles differ. *)
Lemma null_animation_custom_skin :
  SkinsAndAnimation_calculateBounds (RT := Demo.runtime) 0 None ["red"%string]
    0.05 Demo.liveObject
  = Some (mkRect 0 (-8) 16 48)
  /\ SetupPose_calculateBounds Demo.liveObject = mkRect 0 (-8) 16 32.
Proof. split; vm_compute; reflexivity. Qed.

(** A zero-duration animation is sampled once; with a zero time step as
    well, [steps] is NaN, the loop makes no pass and the rectangle collapses. *)
Lemma zero_duration_samples :
  SkinsAndAnimation_calculateBounds (RT := Demo.runtime) 1 (Some "idle"%string)
    [] 0.05 Demo.liveObject
  = Some (mkRect 0 (-8) 16 32)
  /\ SkinsAndAnimation_calculateBounds (RT := Demo.runtime) 0 (Some "idle"%string)
       [] 0 Demo.liveObject
     = Some (mkRect 0 0 0 0).
Proof. split; vm_compute; reflexivity. Qed.

Lemma unbound_bounds_are_zero_witness :
  SkinsAndAnimation_calculateBounds (RT := Demo.runtime) 0 (Some "walk"%string)
    ["red"%string] 0.05 Demo.unboundObject
  = Some (mkRect 0 0 0 0)
  /\ (skeleton Demo.unboundObject = None ->
      SetupPose_calculateBounds Demo.unboundObject = mkRect 0 0 0 0).
Proof.
  apply (unbound_bounds_are_zero (RT := Demo.runtime) 0 (Some "walk"%string)
           ["red"%string] 0.05 Demo.unboundObject).
  left. reflexivity.
Defined.

(** The demo rig knows no animation ["jump"]; with the skin ["red"] bound
    its setup pose is 48 units high. *)
Lemma unknown_animation_is_setup_pose_witness :
  SkinsAndAnimation_calculateBounds (RT := Demo.runtime) 0 (Some "jump"%string)
    ["red"%string] 0.05 Demo.liveObject
  = Some (mkRect 0 (-8) 16 48)
  /\ SkinsAndAnimation_calculateBounds (RT := Demo.runtime) 0
       (Some "jump"%string) ["red"%string] 0.05 Demo.liveObject
     = SkinsAndAnimation_calculateBounds 0 None ["red"%string] 0.05
                                         Demo.liveObject.
Proof.
  apply (unknown_animation_is_setup_pose (RT := Demo.runtime) 0 "jump"
           ["red"%string] 0.05 Demo.liveObject
           (Demo.mkSkel (Demo.rigData "hero") 0.3 [] 0.3)).
  - reflexivity.
  - simpl. eauto.
  - reflexivity.
Defined.

End BoundsExamples.

(** ** The coordinate helpers *)
Section Coordinates.
Import SpineGameObject RoundTrip.







Lemma quarter_turn_example :
  similarity 1 1 3 (-4) = (mkMatrix 0 2 (-2) 0 3 (-4))%float
  /\ skeletonToPhaserWorldCoordinates (similarity 1 1 3 (-4))
       (mkPoint 2 (-1))%float
     = mkPoint 5%float 0%float.
Proof. split; vm_compute; reflexivity. Qed.


(** The inverse matrix is stored in binary32: a scale by three is undone
    with the binary32 number nearest to one third, and the point [(5, 7)]
    comes back as [(5, 7.000000208616257)]. *)
Lemma roundtrip_rounds_in_binary32 :
  roundTrip (mkMatrix 2 0 0 3 1 1)%float (mkPoint 5 7)%float
  = mkPoint 5%float 7.0000002086162567%float
  /\ same_point (roundTrip (mkMatrix 2 0 0 3 1 1)%float (mkPoint 5 7)%float)
                (mkPoint 5 7)%float
     = false.
Proof. split; vm_compute; reflexivity. Qed.

(** On binary64 numbers the round trip is exact where no intermediate result
    is rounded: the identity, a translation, a quarter turn, and a scale by
    two with a quarter turn and a translation, at a point with small integer
    coordinates. *)
Lemma roundtrip_binary64_examples :
  Forall (fun m : TransformMatrix float =>
            phaserWorldCoordinatesToSkeleton m
              (skeletonToPhaserWorldCoordinates m (mkPoint 3 4)%float)
            = mkPoint 3%float 4%float)
    [ mkMatrix 1 0 0 1 0 0;
      mkMatrix 1 0 0 1 10 20;
      mkMatrix 0 1 (-1) 0 0 0;
      mkMatrix 0 2 (-2) 0 10 20 ]%float.
Proof. repeat constructor. Qed.

(** An eighth of a turn: the binary32 cosine and sine are rounded, and so
    is the round trip of the point [(1, 0)]. *)
Lemma roundtrip_rounds_under_rotation :
  let c45 := JS.Math_fround 0.7071067811865476 in
  roundTrip (mkMatrix c45 c45 (- c45) c45 0 0)%float (mkPoint 1 0)%float
  = mkPoint 0.99999996577145822%float 0%float.
Proof. vm_compute. reflexivity. Qed.

End Coordinates.

(** ** [updatePose] *)
Section UpdatePose.
Import Spine SpineGameObject.
Context {RT : Runtime}.

(** Whatever happens, the effects of a call are an initial part of the
  documented sequence: nothing is reordered or repeated. *)
Lemma updatePose_prefix (hooks : Hooks) (delta : float) (this : GameObject) :
  exists k, fst (updatePose hooks delta this) = take k (poseSteps delta).
Proof.
  unfold updatePose, bind, bound, perform, modify, poseSteps.
  destruct (animationState this) as [state|] eqn:Hstate; [|by exists 0%nat].
  cbn. destruct (skeleton this) as [skel|] eqn:Hskel; [|by exists 1%nat].
  cbn. destruct (AnimationState_apply _ skel) as [state' skel'].
  destruct (skeleton (beforeUpdateWorldTransforms hooks _)); [by exists 5%nat|].
  by exists 3%nat.
Qed.

(** A call that returns normally has performed all five steps. *)
Lemma updatePose_complete (hooks : Hooks) (delta : float) (this : GameObject) :
  is_Some (snd (updatePose hooks delta this)) ->
  fst (updatePose hooks delta this) = poseSteps delta.
Proof.
  unfold updatePose, bind, bound, perform, modify, poseSteps.
  destruct (animationState this) as [state|]; [|by intros [? [=]]].
  cbn. destruct (skeleton this) as [skel|]; [|by intros [? [=]]].
  cbn. destruct (AnimationState_apply _ skel) as [state' skel'].
  destruct (skeleton (beforeUpdateWorldTransforms hooks _)); [done|].
  by intros [? [=]].
Qed.

(** The data flow of a call: the updated state is applied, the skeleton it
    produced goes through the before-hook, its world transforms are
    recomputed, and the after-hook sees the result. *)
Lemma updatePose_result (hooks : Hooks) (delta : float) (this : GameObject)
    (state : AnimationState) (skel : Skeleton) :
  animationState this = Some state ->
  skeleton this = Some skel ->
  let applied :=
    AnimationState_apply (AnimationState_update state (delta / 1000)%float) skel in
  let before :=
    beforeUpdateWorldTransforms hooks
      (set_skeleton (snd applied) (set_animationState (fst applied) this)) in
  forall skel',
    skeleton before = Some skel' ->
    snd (updatePose hooks delta this)
    = Some (tt, afterUpdateWorldTransforms hooks
                  (set_skeleton (Skeleton_updateWorldTransform skel') before)).
Proof.
  intros Hstate Hskel applied before skel' Hbefore.
  subst before applied.
  unfold updatePose, bind, bound, perform, modify.
  rewrite Hstate. cbn. rewrite Hskel. cbn.
  destruct (AnimationState_apply _ skel) as [state1 skel1].
  unfold set_skeleton, set_animationState in *. cbn in *.
  rewrite Hbefore. reflexivity.
Qed.

(** [preUpdate] on an object that is not initialised does nothing. *)
Lemma preUpdate_unbound (hooks : Hooks) (time delta : float) (this : GameObject) :
  skeleton this = None \/ animationState this = None ->
  preUpdate hooks time delta this = ([], Some (tt, this)).
Proof.
  unfold preUpdate. intros [-> | ->]; [done|]. by destruct (skeleton this).
Qed.

(** C8: a call on a game object with a bound animation state and skeleton,
    whose before-hook leaves a skeleton bound, returns normally.  Its
    effects are exactly: advance the animation state by [delta / 1000],
    apply it to the skeleton, call the before-hook, recompute the world
    transforms, call the after-hook, in this order; and each step works on
    what the step before it left: the object the call leaves is the
    after-hook's result on the object whose skeleton has the world
    transforms recomputed, of the before-hook's result on the object that
    holds the state and the skeleton the application returned for the
    advanced state. *)
Theorem updatePose_order (hooks : Hooks) (delta : float) (this : GameObject)
    (state : AnimationState) (skel : Skeleton) :
  animationState this = Some state ->
  skeleton this = Some skel ->
  (forall g, is_Some (skeleton g) ->
             is_Some (skeleton (beforeUpdateWorldTransforms hooks g))) ->
  let advanced := AnimationState_update state (delta / 1000)%float in
  let applied := AnimationState_apply advanced skel in
  let before :=
    beforeUpdateWorldTransforms hooks
      (set_skeleton (snd applied) (set_animationState (fst applied) this)) in
  exists posed,
    skeleton before = Some posed
    /\ updatePose hooks delta this
       = ([ AnimationState_update_call (delta / 1000)%float;
            AnimationState_apply_call;
            beforeUpdateWorldTransforms_call;
            Skeleton_updateWorldTransform_call;
            afterUpdateWorldTransforms_call ],
          Some (tt, afterUpdateWorldTransforms hooks
                      (set_skeleton (Skeleton_updateWorldTransform posed)
                                    before))).
Proof.
  intros Hstate Hskel Hhook advanced applied before.
  destruct (Hhook (set_skeleton (snd applied)
                     (set_animationState (fst applied) this)))
    as [posed Hposed]; [by eexists|].
  exists posed. split; [exact Hposed|].
  pose proof (updatePose_result hooks delta this state skel Hstate Hskel posed
                Hposed) as Hresult.
  assert (Htrace : fst (updatePose hooks delta this) = poseSteps delta).
  { apply updatePose_complete. rewrite Hresult. by eexists. }
  destruct (updatePose hooks delta this) as [trace outcome].
  cbn [fst snd] in Hresult, Htrace. by rewrite Hresult, Htrace.
Qed.

End UpdatePose.

(** One frame of 16 ms on the walking rig: the state's time goes from 0.3
    to 0.316, the skeleton is posed at that time and its world transforms
    follow. *)
Lemma updatePose_order_witness :
  exists posed,
    SpineGameObject.skeleton
      (SpineGameObject.beforeUpdateWorldTransforms SpineGameObject.defaultHooks
         (SpineGameObject.set_skeleton
            (snd (Spine.AnimationState_apply
                    (Spine.AnimationState_update
                       (Demo.mkState (Demo.rigData "hero")
                          (Some ("walk"%string, 0.12%float)) 0.3)
                       (16 / 1000)%float)
                    (Demo.mkSkel (Demo.rigData "hero") 0.3 [] 0.3)))
            (SpineGameObject.set_animationState
               (fst (Spine.AnimationState_apply
                       (Spine.AnimationState_update
                          (Demo.mkState (Demo.rigData "hero")
                             (Some ("walk"%string, 0.12%float)) 0.3)
                          (16 / 1000)%float)
                       (Demo.mkSkel (Demo.rigData "hero") 0.3 [] 0.3)))
               Demo.liveObject)))
    = Some posed
    /\ SpineGameObject.updatePose (RT := Demo.runtime)
         SpineGameObject.defaultHooks 16 Demo.liveObject
       = ([ SpineGameObject.AnimationState_update_call (16 / 1000)%float;
            SpineGameObject.AnimationState_apply_call;
            SpineGameObject.beforeUpdateWorldTransforms_call;
            SpineGameObject.Skeleton_updateWorldTransform_call;
            SpineGameObject.afterUpdateWorldTransforms_call ],
          Some (tt,
                SpineGameObject.afterUpdateWorldTransforms
                  SpineGameObject.defaultHooks
                  (SpineGameObject.set_skeleton
                     (Spine.Skeleton_updateWorldTransform posed)
                     (SpineGameObject.beforeUpdateWorldTransforms
                        SpineGameObject.defaultHooks
                        (SpineGameObject.set_skeleton
                           (snd (Spine.AnimationState_apply
                                   (Spine.AnimationState_update
                                      (Demo.mkState (Demo.rigData "hero")
                                         (Some ("walk"%string, 0.12%float)) 0.3)
                                      (16 / 1000)%float)
                                   (Demo.mkSkel (Demo.rigData "hero") 0.3 [] 0.3)))
                           (SpineGameObject.set_animationState
                              (fst (Spine.AnimationState_apply
                                      (Spine.AnimationState_update
                                         (Demo.mkState (Demo.rigData "hero")
                                            (Some ("walk"%string, 0.12%float)) 0.3)
                                         (16 / 1000)%float)
                                      (Demo.mkSkel (Demo.rigData "hero") 0.3 [] 0.3)))
                              Demo.liveObject)))))).
Proof.
  apply (updatePose_order (RT := Demo.runtime) SpineGameObject.defaultHooks 16
           Demo.liveObject
           (Demo.mkState (Demo.rigData "hero") (Some ("walk"%string, 0.12%float)) 0.3)
           (Demo.mkSkel (Demo.rigData "hero") 0.3 [] 0.3)).
  - reflexivity.
  - reflexivity.
  - intros g Hg. exact Hg.
Defined.

(** The object that frame leaves: state and skeleton at 0.316 s, the world
    transforms computed for that time. *)
Lemma updatePose_demo_frame :
  snd (SpineGameObject.updatePose (RT := Demo.runtime)
         SpineGameObject.defaultHooks 16 Demo.liveObject)
  = Some (tt,
          SpineGameObject.mkGameObject SpineGameObject.SetupPoseBoundsProvider
            false
            (Some (Demo.mkSkel (Demo.rigData "hero") (0.3 + 16 / 1000) []
                               (0.3 + 16 / 1000)))
            (Some (Demo.rigData "hero"))
            (Some (Demo.mkState (Demo.rigData "hero")
                     (Some ("walk"%string, 0.12%float)) (0.3 + 16 / 1000)))
            0 0 0 0).
Proof. reflexivity. Qed.

(** ** The skeleton-data memo *)
Section SkeletonDataCache.
Import Phaser Spine SpinePlugin.
Context {RT : Runtime}.

Lemma getAtlas_skeletonDataCache g this atlasKey atlas this' :
  getAtlas g this atlasKey = Some (atlas, this') ->
  skeletonDataCache this' = skeletonDataCache this.
Proof.
  unfold getAtlas. destruct (atlasCache this !! atlasKey).
  - by intros [= _ <-].
  - destruct (cache_text g !! atlasKey) as [entry|]; [|done]. cbn.
    destruct (atlasText entry) as [text|]; [|done]. cbn.
    destruct (TextureAtlas_new text); [|done]. cbn.
    by intros [= _ <-].
Qed.

(** After a successful call the data sits in the memo under the
  concatenated key. *)
Lemma getSkeletonData_memoized g this dataKey atlasKey skeletonData this' :
  getSkeletonData g this dataKey atlasKey = Some (skeletonData, this') ->
  skeletonDataCache this' !! (dataKey +:+ atlasKey) = Some skeletonData.
Proof.
  unfold getSkeletonData.
  destruct (getAtlas g this atlasKey) as [[atlas this1]|]; [|done]. cbn.
  destruct (skeletonDataCache this1 !! (dataKey +:+ atlasKey)) as [cached|] eqn:Hc.
  - by intros [= <- <-].
  - destruct (match cache_json g !! dataKey with Some _ => _ | None => _ end)
      as [fresh|]; [|done].
    cbn. intros [= <- <-]. cbn. by rewrite lookup_insert_eq.
Qed.

(** C9: the memo key is the plain concatenation [dataKey + atlasKey], so
  after a call with one pair of keys, a call with any pair that
  concatenates to the same string (and whose atlas can be obtained)
  returns the data cached by the first call. *)
Theorem getSkeletonData_collision
    (g : Game) (this this1 : t) (dataKey1 atlasKey1 dataKey2 atlasKey2 : string)
    (skeletonData1 : SkeletonData) :
  dataKey1 +:+ atlasKey1 = dataKey2 +:+ atlasKey2 ->
  getSkeletonData g this dataKey1 atlasKey1 = Some (skeletonData1, this1) ->
  is_Some (getAtlas g this1 atlasKey2) ->
  exists this2,
    getSkeletonData g this1 dataKey2 atlasKey2 = Some (skeletonData1, this2).
Proof.
  intros Hkeys Hfirst [[atlas2 this2] Hatlas].
  apply getSkeletonData_memoized in Hfirst.
  unfold getSkeletonData. rewrite Hatlas. cbn.
  rewrite (getAtlas_skeletonDataCache _ _ _ _ _ Hatlas), <- Hkeys, Hfirst.
  by exists this2.
Qed.

(** An atlas whose text is in the text cache and parses can be obtained,
    whatever the plugin has cached. *)
Lemma getAtlas_is_Some g this atlasKey text pma :
  cache_text g !! atlasKey = Some (AtlasObject (Text text) pma) ->
  is_Some (TextureAtlas_new text) ->
  is_Some (getAtlas g this atlasKey).
Proof.
  intros Hentry [atlas Hparse]. unfold getAtlas.
  destruct (atlasCache this !! atlasKey); [by eexists|].
  rewrite Hentry. cbn. rewrite Hparse. cbn. by eexists.
Qed.

End SkeletonDataCache.

(** The pairs [("ab", "c")] and [("a", "bc")]: called second, [("a", "bc")]
    gets the rig read for [("ab", "c")]; called on a fresh plugin it gets
    its own. *)
Lemma getSkeletonData_collision_witness :
  exists this1 this2,
    SpinePlugin.getSkeletonData (RT := Demo.runtime) Demo.collidingGame
      Demo.freshPlugin "ab" "c"
    = Some (Demo.rigData "rig of ab", this1)
    /\ SpinePlugin.getSkeletonData Demo.collidingGame this1 "a" "bc"
       = Some (Demo.rigData "rig of ab", this2).
Proof.
  destruct (SpinePlugin.getSkeletonData (RT := Demo.runtime) Demo.collidingGame
              Demo.freshPlugin "ab" "c") as [[data1 this1]|] eqn:Hfirst.
  - assert (Hdata : fst <$> SpinePlugin.getSkeletonData (RT := Demo.runtime)
                               Demo.collidingGame Demo.freshPlugin "ab" "c"
                     = Some (Demo.rigData "rig of ab")).
    { vm_compute. reflexivity. }
    rewrite Hfirst in Hdata. injection Hdata as ->.
    destruct (getSkeletonData_collision (RT := Demo.runtime) Demo.collidingGame
                Demo.freshPlugin this1 "ab" "c" "a" "bc"
                (Demo.rigData "rig of ab")) as [this2 Hsecond].
    + reflexivity.
    + exact Hfirst.
    + apply (getAtlas_is_Some (RT := Demo.runtime) Demo.collidingGame this1
               "bc" "bc.png" true).
      * vm_compute. reflexivity.
      * vm_compute. eauto.
    + by exists this1, this2.
  - assert (Hdata : fst <$> SpinePlugin.getSkeletonData (RT := Demo.runtime)
                               Demo.collidingGame Demo.freshPlugin "ab" "c"
                     = Some (Demo.rigData "rig of ab")).
    { vm_compute. reflexivity. }
    rewrite Hfirst in Hdata. discriminate.
Defined.

Lemma getSkeletonData_fresh_plugin :
  fst <$> SpinePlugin.getSkeletonData (RT := Demo.runtime) Demo.collidingGame
            Demo.freshPlugin "a" "bc"
  = Some (Demo.rigData "rig of a").
Proof. vm_compute. reflexivity. Qed.


(** * Further properties *)

(** ** The atlas job and the loader's table *)
Section AtlasJobInvariants.
Import Phaser SpineAtlasFile Tasks.

Lemma same_task_task_id f1 f2 : same_task f1 f2 = true <-> task_id f1 = task_id f2.
Proof.
  unfold same_task, task_id. rewrite andb_true_iff, !String.eqb_eq.
  split; [intros [-> ->]; done | intros [= -> ->]; done].
Qed.

Lemma keyExists_known l f : keyExists l f = true <-> task_id f ∈ known l.
Proof.
  unfold keyExists, known. rewrite existsb_exists, list_elem_of_fmap.
  split.
  - intros (x & Hin & Hsame). exists x. split.
    + by apply same_task_task_id.
    + by apply list_elem_of_In.
  - intros (x & Heq & Hin). exists x. split.
    + by apply list_elem_of_In.
    + by apply same_task_task_id.
Qed.

(** The loop over the page names: it appends image tasks, the same ones to
  the loader's table and to the job, one pending count each; it keeps the
  table free of repeated tasks; and afterwards every page name's task is
  in the table. *)
Lemma addPageImages_spec textures :
  forall fileKey base loader this,
  exists added,
    fold_left (addPageImage fileKey base) textures (loader, this)
    = (mkLoader (game loader) (queue loader ++ added),
       mk (key this) (files this ++ added)
          (pending this + Z.of_nat (length added)) (failed this)
          (match added with [] => complete this | _ => false end)
          (premultipliedAlpha this))
    /\ Forall is_image added
    /\ (NoDup (known loader) ->
        NoDup (map task_id (queue loader ++ added)))
    /\ (forall page, page ∈ textures ->
          task_id (pageImage fileKey base page)
          ∈ map task_id (queue loader ++ added)).
Proof.
  induction textures as [|page textures IH]; intros fileKey base loader this.
  - exists []. cbn [fold_left length]. rewrite !app_nil_r, Z.add_0_r.
    destruct loader, this. repeat split; [constructor | done | ].
    intros page Hin. by apply elem_of_nil in Hin.
  - cbn [fold_left]. unfold addPageImage at 2.
    change (ImageFile (fileKey +:+ "!" +:+ page) (JS.match_plus base page))
      with (pageImage fileKey base page).
    destruct (keyExists loader (pageImage fileKey base page)) eqn:Hknown;
      cbn [negb].
    + destruct (IH fileKey base loader this) as (added & -> & Himg & Hnd & Hall).
      exists added. repeat split; try done.
      intros page' [-> | Hin]%elem_of_cons; [|by apply Hall].
      apply keyExists_known in Hknown. unfold known in Hknown.
      rewrite map_app. apply elem_of_app. by left.
    + unfold addFile. rewrite Hknown.
      destruct (IH fileKey base
                  (mkLoader (game loader)
                            (queue loader ++ [pageImage fileKey base page]))
                  (addToMultiFile this (pageImage fileKey base page)))
        as (added & -> & Himg & Hnd & Hall).
      exists (pageImage fileKey base page :: added).
      cbn [game queue key files pending failed complete premultipliedAlpha
           addToMultiFile length].
      rewrite <- !app_assoc. cbn [app].
      unfold known in Hnd. cbn [queue] in Hnd, Hall.
      rewrite <- app_assoc in Hnd, Hall. cbn [app] in Hnd, Hall.
      split; [|split; [|split]].
      * do 2 f_equal; [lia | by destruct added].
      * constructor; [reflexivity | done].
      * intros Hnodup. apply Hnd. rewrite map_app. cbn [map].
        apply List.NoDup_app.
        -- exact Hnodup.
        -- constructor; [intros [] | constructor].
        -- intros id Hid%list_elem_of_In [<-|[]].
           apply keyExists_known in Hid. congruence.
      * intros page' [-> | Hin]%elem_of_cons.
        -- rewrite map_app. apply elem_of_app. right. cbn [map]. by left.
        -- by apply Hall.
Qed.

(** What a completion does, for a file of the job. *)
Lemma onFileComplete_spec loader this file loader' this' :
  file ∈ files this ->
  onFileComplete loader this file = Some (loader', this') ->
  exists added,
    loader' = mkLoader (game loader) (queue loader ++ added)
    /\ this' = mk (key this) (files this ++ added)
                  (pending this - 1 + Z.of_nat (length added)) (failed this)
                  (match added with [] => complete this | _ => false end)
                  (premultipliedAlpha this)
    /\ Forall is_image added
    /\ (NoDup (known loader) -> NoDup (known loader'))
    /\ (forall data page,
          file_type file = "text"%string -> file_data file = Text data ->
          page ∈ textures_of (JS.split_lines data) ->
          task_id (pageImage (file_key file) (JS.match_base_path (file_src file)) page)
          ∈ known loader').
Proof.
  intros Hin. unfold onFileComplete. rewrite bool_decide_eq_true_2 by done.
  destruct (String.eqb (file_type file) "text") eqn:Htype.
  - destruct (file_data file) as [|data| |] eqn:Hdata; try done.
    match goal with
    | |- Some (fold_left _ ?tex (?l, ?t)) = _ -> _ =>
        destruct (addPageImages_spec tex (file_key file)
                    (JS.match_base_path (file_src file)) l t)
          as (added & -> & Himg & Hnd & Hall)
    end.
    cbn [key files pending failed complete premultipliedAlpha].
    intros [= <- <-]. exists added. unfold known at 2. cbn [queue].
    repeat split; try done.
    intros data' page _ [= <-]. apply Hall.
  - intros [= <- <-]. exists []. rewrite !app_nil_r. cbn [length].
    rewrite Z.add_0_r. destruct loader. repeat split; try done.
    intros data page Htext. rewrite Htext in Htype. discriminate.
Qed.

(** X3: a completion reported for a file of the job only ever appends: the
    same new image tasks go to the loader's table and to the job's files, the
    caches are untouched, and the pending count goes down by one and up by
    one per new task. *)
Theorem onFileComplete_appends loader this file loader' this' :
  file ∈ files this ->
  onFileComplete loader this file = Some (loader', this') ->
  exists added,
    queue loader' = queue loader ++ added
    /\ files this' = files this ++ added
    /\ Forall is_image added
    /\ game loader' = game loader
    /\ pending this' = pending this - 1 + Z.of_nat (length added)
    /\ failed this' = failed this
    /\ premultipliedAlpha this' = premultipliedAlpha this.
Proof.
  intros Hin Hdone.
  destruct (onFileComplete_spec _ _ _ _ _ Hin Hdone)
    as (added & -> & -> & Himg & _).
  by exists added.
Qed.

(** X5: once the atlas text has completed, the task of every page name in it
    is in the loader's table, whether this job scheduled it or it was there
    before. *)
Theorem onFileComplete_pages_known loader this file data loader' this' page :
  file ∈ files this ->
  file_type file = "text"%string ->
  file_data file = Text data ->
  onFileComplete loader this file = Some (loader', this') ->
  page ∈ textures_of (JS.split_lines data) ->
  keyExists loader'
    (ImageFile (imageKey (file_key file) page)
               (JS.match_plus (JS.match_base_path (file_src file)) page))
  = true.
Proof.
  intros Hin Htype Hdata Hdone Hpage.
  destruct (onFileComplete_spec _ _ _ _ _ Hin Hdone) as (added & _ & _ & _ & _ & Hall).
  apply keyExists_known. exact (Hall data page Htype Hdata Hpage).
Qed.

(** X6: a job that has just scheduled page images is not installed: with the
    completed file still counted as pending before the call, [addToCache]
    after it changes nothing. *)
Theorem onFileComplete_blocks_install loader this file loader' this' :
  file ∈ files this ->
  1 <= pending this ->
  onFileComplete loader this file = Some (loader', this') ->
  files this' <> files this ->
  addToCache loader' this' = Some (loader', this').
Proof.
  intros Hin Hpending Hdone Hgrew.
  destruct (onFileComplete_spec _ _ _ _ _ Hin Hdone) as (added & _ & -> & _).
  unfold addToCache, isReadyToProcess.
  cbn [pending files] in *.
  destruct added as [|image added]; [by rewrite app_nil_r in Hgrew|].
  replace (pending this - 1 + Z.of_nat (length (image :: added)) =? 0) with false;
    [done|].
  symmetry. apply Z.eqb_neq. cbn [length]. lia.
Qed.

End AtlasJobInvariants.


(** ** The atlas job and the texture manager *)
Section AtlasInstall.
Import Phaser SpineAtlasFile.

Lemma cacheFile_thrown pma files : fold_left (cacheFile pma) files None = None.
Proof. induction files as [|f files IH]; [done|]. exact IH. Qed.

(** The pass over the job's files: registered textures stay as they are,
  every image of the job ends up registered, an image with a fresh key is
  registered with its own data, and the JSON and binary caches are not
  touched. *)
Lemma cacheFile_fold_spec pma files :
  forall g seen g' seen',
    fold_left (cacheFile pma) files (Some (g, seen)) = Some (g', seen') ->
    (forall k d, textures g !! k = Some d -> textures g' !! k = Some d)
    /\ (forall f, f ∈ files -> is_image f -> is_Some (textures g' !! file_key f))
    /\ (NoDup (map file_key files) ->
        forall f, f ∈ files -> is_image f -> textures g !! file_key f = None ->
                  textures g' !! file_key f = Some (file_data f))
    /\ cache_json g' = cache_json g
    /\ cache_binary g' = cache_binary g.
Proof.
  induction files as [|f0 files IH]; intros g seen g' seen' Hfold.
  - cbn in Hfold. injection Hfold as <- <-.
    split_and!; [done | | | done | done].
    + intros f Hf. by apply elem_of_nil in Hf.
    + intros _ f Hf. by apply elem_of_nil in Hf.
  - cbn [fold_left] in Hfold.
    destruct (cacheFile pma (Some (g, seen)) f0) as [[g1 seen1]|] eqn:Hstep;
      [|by rewrite cacheFile_thrown in Hfold].
    destruct (IH _ _ _ _ Hfold) as (Hkeep & Hreg & Hexact & Hjson & Hbin).
    assert (Hstep_keep : forall k d, textures g !! k = Some d ->
                                     textures g1 !! k = Some d).
    { intros k d Hk. unfold cacheFile in Hstep. cbn in Hstep.
      destruct (String.eqb (file_type f0) "image").
      - destruct (textureManager_exists g (file_key f0)) eqn:Hex;
          cbn in Hstep; injection Hstep as <- _; [done|].
        cbn. rewrite lookup_insert_ne; [done|]. intros <-.
        unfold textureManager_exists in Hex.
        apply bool_decide_eq_false_1 in Hex. apply Hex. by eexists.
      - destruct (resolve_premultipliedAlpha pma (file_data f0)); [|done].
        cbn in Hstep. by injection Hstep as <- _. }
    assert (Hstep_other : cache_json g1 = cache_json g
                          /\ cache_binary g1 = cache_binary g).
    { unfold cacheFile in Hstep. cbn in Hstep.
      destruct (String.eqb (file_type f0) "image").
      - destruct (textureManager_exists g (file_key f0));
          cbn in Hstep; by injection Hstep as <- _.
      - destruct (resolve_premultipliedAlpha pma (file_data f0)); [|done].
        cbn in Hstep. by injection Hstep as <- _. }
    assert (Hstep_image : is_image f0 ->
              is_Some (textures g1 !! file_key f0)
              /\ (textures g !! file_key f0 = None ->
                  textures g1 !! file_key f0 = Some (file_data f0))).
    { intros Himg. unfold is_image in Himg. unfold cacheFile in Hstep.
      cbn in Hstep. rewrite Himg in Hstep. cbn in Hstep.
      destruct (textureManager_exists g (file_key f0)) eqn:Hex;
        cbn in Hstep; injection Hstep as <- _.
      - unfold textureManager_exists in Hex. apply bool_decide_eq_true_1 in Hex.
        split; [done|]. intros Hnone. rewrite Hnone in Hex. by destruct Hex.
      - cbn. rewrite lookup_insert_eq. split; [by eexists | done]. }
    assert (Hstep_fresh : forall k, k <> file_key f0 ->
              textures g !! k = None -> textures g1 !! k = None).
    { intros k Hk Hnone. unfold cacheFile in Hstep. cbn in Hstep.
      destruct (String.eqb (file_type f0) "image").
      - destruct (textureManager_exists g (file_key f0));
          cbn in Hstep; injection Hstep as <- _; [done|].
        cbn. by rewrite lookup_insert_ne.
      - destruct (resolve_premultipliedAlpha pma (file_data f0)); [|done].
        cbn in Hstep. by injection Hstep as <- _. }
    split; [|split; [|split; [|split]]].
    + intros k d Hk. by apply Hkeep, Hstep_keep.
    + intros f [-> | Hf]%elem_of_cons Himg; [|by apply Hreg].
      destruct (Hstep_image Himg) as [[d Hd] _]. rewrite (Hkeep _ _ Hd). by eexists.
    + intros Hnodup f Hf Himg Hnone. cbn [map] in Hnodup.
      apply List.NoDup_cons_iff in Hnodup as [Hnotin Hnodup].
      apply elem_of_cons in Hf as [-> | Hf].
      * apply Hkeep. by apply Hstep_image.
      * apply (Hexact Hnodup f Hf Himg). apply Hstep_fresh; [|done].
        intros Heq. apply Hnotin. rewrite <- Heq.
        apply List.in_map. by apply list_elem_of_In.
    + destruct Hstep_other. congruence.
    + destruct Hstep_other. congruence.
Qed.

(** What a successful [addToCache] of a ready job leaves behind. *)
Lemma addToCache_spec loader this loader' this' :
  isReadyToProcess this = true ->
  addToCache loader this = Some (loader', this') ->
  exists seen,
    fold_left (cacheFile (premultipliedAlpha this)) (files this)
              (Some (game loader, []))
    = Some (game loader', seen)
    /\ queue loader' = queue loader.
Proof.
  intros Hready. unfold addToCache. rewrite Hready.
  destruct (fold_left _ _ _) as [[g seen]|]; [|done].
  cbn. intros [= <- <-]. by exists seen.
Qed.


(** X8: after a ready job is installed, every image task of the job has a
  texture under its key. *)
Theorem addToCache_registers_images loader this loader' this' f :
  isReadyToProcess this = true ->
  addToCache loader this = Some (loader', this') ->
  f ∈ files this ->
  is_image f ->
  textureManager_exists (game loader') (file_key f) = true.
Proof.
  intros Hready Hdone Hf Himg.
  destruct (addToCache_spec _ _ _ _ Hready Hdone) as (seen & Hfold & _).
  destruct (cacheFile_fold_spec _ _ _ _ _ _ Hfold) as (_ & Hreg & _).
  apply bool_decide_eq_true_2. by apply Hreg.
Qed.

(** X9: the image a job registers is the image the plugin later binds to the
  atlas page: for a job whose files have distinct keys, an image task whose
  key was free is found by the plugin's texture lookup with the data the
  task downloaded, not the placeholder. *)
Theorem addToCache_getSourceImage loader this loader' this' f :
  isReadyToProcess this = true ->
  addToCache loader this = Some (loader', this') ->
  NoDup (map file_key (files this)) ->
  f ∈ files this ->
  is_image f ->
  textureManager_exists (game loader) (file_key f) = false ->
  SpinePlugin.getSourceImage (game loader') (file_key f) = file_data f.
Proof.
  intros Hready Hdone Hnodup Hf Himg Hfree.
  destruct (addToCache_spec _ _ _ _ Hready Hdone) as (seen & Hfold & _).
  destruct (cacheFile_fold_spec _ _ _ _ _ _ Hfold) as (_ & _ & Hexact & _).
  unfold SpinePlugin.getSourceImage. rewrite (Hexact Hnodup f Hf Himg); [done|].
  unfold textureManager_exists in Hfree. apply bool_decide_eq_false_1 in Hfree.
  destruct (textures (game loader) !! file_key f) eqn:E; [|done].
  exfalso. apply Hfree. by eexists.
Qed.

End AtlasInstall.


(** ** The plugin's memos *)
Section PluginMemos.
Import Phaser Spine SpinePlugin.
Context {RT : Runtime}.

Lemma getAtlas_hit g this atlasKey atlas :
  atlasCache this !! atlasKey = Some atlas ->
  getAtlas g this atlasKey = Some (atlas, this).
Proof. intros Hhit. unfold getAtlas. by rewrite Hhit. Qed.

(** A successful [getAtlas] leaves the atlas in the memo, keeps every other
  memo entry, and does not touch the skeleton-data memo. *)
Lemma getAtlas_spec g this atlasKey atlas this' :
  getAtlas g this atlasKey = Some (atlas, this') ->
  atlasCache this' !! atlasKey = Some atlas
  /\ (forall k v, atlasCache this !! k = Some v -> atlasCache this' !! k = Some v)
  /\ skeletonDataCache this' = skeletonDataCache this
  /\ isWebGL this' = isWebGL this.
Proof.
  unfold getAtlas. destruct (atlasCache this !! atlasKey) as [cached|] eqn:Hmemo.
  - by intros [= <- <-].
  - destruct (cache_text g !! atlasKey) as [entry|]; [|done]. cbn.
    destruct (atlasText entry) as [text|]; [|done]. cbn.
    destruct (TextureAtlas_new text) as [parsed|]; [|done]. cbn.
    intros [= <- <-]. cbn. rewrite lookup_insert_eq. split_and!; try done.
    intros k v Hk. rewrite lookup_insert_ne; [done|]. congruence.
Qed.

(** [getAtlas] reads the text cache and the texture manager only. *)
Lemma getAtlas_reads g g' this atlasKey :
  cache_text g' = cache_text g ->
  textures g' = textures g ->
  getAtlas g' this atlasKey = getAtlas g this atlasKey.
Proof.
  intros Htext Htex. unfold getAtlas, bindPages, getSourceImage.
  by rewrite Htext, Htex.
Qed.

(** A successful [getSkeletonData]: the atlas it used, and the memo it
  leaves. *)
Lemma getSkeletonData_spec g this dataKey atlasKey skeletonData this' :
  getSkeletonData g this dataKey atlasKey = Some (skeletonData, this') ->
  exists atlas this1,
    getAtlas g this atlasKey = Some (atlas, this1)
    /\ atlasCache this' = atlasCache this1
    /\ skeletonDataCache this' !! (dataKey +:+ atlasKey) = Some skeletonData
    /\ (forall k v, skeletonDataCache this !! k = Some v ->
                    skeletonDataCache this' !! k = Some v).
Proof.
  unfold getSkeletonData.
  destruct (getAtlas g this atlasKey) as [[atlas this1]|] eqn:Hatlas; [|done].
  destruct (getAtlas_spec _ _ _ _ _ Hatlas) as (_ & _ & Hsame & _).
  cbn. destruct (skeletonDataCache this1 !! (dataKey +:+ atlasKey))
    as [cached|] eqn:Hmemo.
  - intros [= <- <-]. exists atlas, this1. split_and!; try done.
    intros k v. by rewrite Hsame.
  - destruct (match cache_json g !! dataKey with Some _ => _ | None => _ end)
      as [fresh|]; [|done].
    cbn. intros [= <- <-]. exists atlas, this1. cbn.
    rewrite lookup_insert_eq. split_and!; try done.
    intros k v Hk. rewrite lookup_insert_ne; [by rewrite Hsame|].
    intros <-. rewrite Hsame in Hmemo. congruence.
Qed.

(** X10: an atlas obtained once is returned again by every later call for
  its key, unchanged and without changing the plugin, whatever the text
  cache and the texture manager hold by then. *)
Theorem getAtlas_memo g g' this atlasKey atlas this' :
  getAtlas g this atlasKey = Some (atlas, this') ->
  getAtlas g' this' atlasKey = Some (atlas, this').
Proof.
  intros Hfirst. apply getAtlas_hit.
  by destruct (getAtlas_spec _ _ _ _ _ Hfirst) as (Hmemo & _).
Qed.

(** X11: skeleton data obtained once for a pair of keys is returned again by
  every later call for that pair, without changing the plugin, whatever
  the game's caches hold by then; and every skeleton created for the pair
  is built from that one data object. *)
Theorem getSkeletonData_memo g g' this dataKey atlasKey skeletonData this' :
  getSkeletonData g this dataKey atlasKey = Some (skeletonData, this') ->
  getSkeletonData g' this' dataKey atlasKey = Some (skeletonData, this')
  /\ createSkeleton g' this' dataKey atlasKey
     = Some (Skeleton_new skeletonData, this').
Proof.
  intros Hfirst.
  destruct (getSkeletonData_spec _ _ _ _ _ _ Hfirst)
    as (atlas & this1 & Hatlas & Hsame & Hmemo & _).
  destruct (getAtlas_spec _ _ _ _ _ Hatlas) as (Hhit & _).
  assert (Hagain : getSkeletonData g' this' dataKey atlasKey
                   = Some (skeletonData, this')).
  { unfold getSkeletonData.
    rewrite (getAtlas_hit g' this' atlasKey atlas) by (by rewrite Hsame).
    cbn. by rewrite Hmemo. }
  split; [exact Hagain|]. unfold createSkeleton. by rewrite Hagain.
Qed.

(** X12: the plugin's memos only grow: a call of [getSkeletonData] keeps
  every atlas and every skeleton data that was memoized before it. *)
Theorem getSkeletonData_keeps_memos
    g this dataKey atlasKey skeletonData this' :
  getSkeletonData g this dataKey atlasKey = Some (skeletonData, this') ->
  (forall k v, atlasCache this !! k = Some v -> atlasCache this' !! k = Some v)
  /\ (forall k v, skeletonDataCache this !! k = Some v ->
                  skeletonDataCache this' !! k = Some v).
Proof.
  intros Hcall.
  destruct (getSkeletonData_spec _ _ _ _ _ _ Hcall)
    as (atlas & this1 & Hatlas & Hsame & _ & Hkeep).
  destruct (getAtlas_spec _ _ _ _ _ Hatlas) as (_ & Hgrow & _).
  split; [|exact Hkeep]. intros k v Hk. rewrite Hsame. by apply Hgrow.
Qed.

(** X13: a data key found in neither the JSON nor the binary cache is not
  rejected: it is read as a binary skeleton of zero bytes. *)
Theorem getSkeletonData_missing_data g this dataKey atlasKey atlas this1 :
  getAtlas g this atlasKey = Some (atlas, this1) ->
  skeletonDataCache this !! (dataKey +:+ atlasKey) = None ->
  cache_json g !! dataKey = None ->
  cache_binary g !! dataKey = None ->
  fst <$> getSkeletonData g this dataKey atlasKey
  = SkeletonBinary_readSkeletonData atlas [].
Proof.
  intros Hatlas Hmemo Hjson Hbin. unfold getSkeletonData.
  rewrite Hatlas. cbn.
  destruct (getAtlas_spec _ _ _ _ _ Hatlas) as (_ & _ & -> & _).
  rewrite Hmemo, Hjson, Hbin. cbn.
  by destruct (SkeletonBinary_readSkeletonData atlas []).
Qed.

End PluginMemos.

(** ** The skeleton job and the plugin *)
Section SkeletonJob.
Import Phaser Spine SpinePlugin SpineSkeletonDataFile.
Context {RT : Runtime}.

(** What a job installs: the file the constructor built decides how the
    response is decoded and which cache receives it. *)
Lemma load_json g key url r :
  load g (Positional key url json) r
  = Some (mkGame (textures g) (cache_text g)
                 (<[key := responseText r]> (cache_json g)) (cache_binary g)).
Proof. reflexivity. Qed.

Lemma load_binary g key url r :
  load g (Positional key url binary) r
  = Some (mkGame (textures g) (cache_text g) (cache_json g)
                 (<[key := response r]> (cache_binary g))).
Proof. reflexivity. Qed.

Lemma load_config g key url type r :
  load g (Config key url type) r
  = load g (Positional key url
              (if String.eqb type "spineJson" then json else binary)) r.
Proof. reflexivity. Qed.

(** Without a memo entry, [getSkeletonData] reads the JSON document when the
    JSON cache has the key, and the binary buffer otherwise. *)
Lemma getSkeletonData_fresh g this dataKey atlasKey :
  skeletonDataCache this !! (dataKey +:+ atlasKey) = None ->
  fst <$> getSkeletonData g this dataKey atlasKey
  = (getAtlas g this atlasKey ≫= fun '(atlas, _) =>
       match cache_json g !! dataKey with
       | Some jsonFile => SkeletonJson_readSkeletonData (Runtime := RT) atlas jsonFile
       | None => SkeletonBinary_readSkeletonData (Runtime := RT) atlas
                   (default [] (cache_binary g !! dataKey))
       end).
Proof.
  intros Hmemo. unfold getSkeletonData.
  destruct (getAtlas g this atlasKey) as [[atlas this1]|] eqn:Hatlas; [|done].
  destruct (getAtlas_spec _ _ _ _ _ Hatlas) as (_ & _ & Hsame & _).
  cbn. rewrite Hsame, Hmemo.
  by destruct (match cache_json g !! dataKey with Some _ => _ | None => _ end).
Qed.

(** X14: a skeleton job created for JSON, by position or by a config object
    of type ["spineJson"], decodes the response as a JSON document and
    installs it where [getSkeletonData] looks first: for the job's key the
    plugin parses that document, with the JSON reader and the atlas of the
    given atlas key. *)
Theorem skeleton_json_job_is_parsed g this args key url atlasKey r :
  args = Positional key url json \/ args = Config key url "spineJson" ->
  skeletonDataCache this !! (key +:+ atlasKey) = None ->
  exists g',
    load g args r = Some g'
    /\ fst <$> getSkeletonData g' this key atlasKey
       = (getAtlas g this atlasKey ≫= fun '(atlas, _) =>
            SkeletonJson_readSkeletonData (Runtime := RT) atlas (responseText r)).
Proof.
  intros Hargs Hmemo. eexists. split.
  - destruct Hargs as [-> | ->]; [|rewrite load_config]; apply load_json.
  - rewrite getSkeletonData_fresh by done.
    rewrite (getAtlas_reads g) by done.
    cbn. by rewrite lookup_insert_eq.
Qed.

(** X15: a skeleton job created for binary (by position, or by a config
    object of any type other than ["spineJson"]) keeps the response as a raw
    buffer and installs it in the binary cache: for the job's key the plugin
    parses those bytes with the binary reader, provided the JSON cache has
    no entry for the key. *)
Theorem skeleton_binary_job_is_parsed g this args key url type atlasKey r :
  args = Positional key url binary
  \/ (args = Config key url type /\ type <> "spineJson"%string) ->
  skeletonDataCache this !! (key +:+ atlasKey) = None ->
  cache_json g !! key = None ->
  exists g',
    load g args r = Some g'
    /\ fst <$> getSkeletonData g' this key atlasKey
       = (getAtlas g this atlasKey ≫= fun '(atlas, _) =>
            SkeletonBinary_readSkeletonData (Runtime := RT) atlas (response r)).
Proof.
  intros Hargs Hmemo Hjson. eexists. split.
  - destruct Hargs as [-> | [-> Htype]]; [apply load_binary|].
    rewrite load_config. apply String.eqb_neq in Htype. rewrite Htype.
    apply load_binary.
  - rewrite getSkeletonData_fresh by done.
    rewrite (getAtlas_reads g) by done.
    cbn. by rewrite Hjson, lookup_insert_eq.
Qed.

(** X16: a JSON document cached under a key shadows a binary skeleton loaded
    later under the same key: [getSkeletonData] still parses the JSON
    document and never looks at the buffer. *)
Theorem json_entry_shadows_binary g this key url atlasKey document r :
  cache_json g !! key = Some document ->
  skeletonDataCache this !! (key +:+ atlasKey) = None ->
  exists g',
    load g (Positional key url binary) r = Some g'
    /\ cache_binary g' !! key = Some (response r)
    /\ fst <$> getSkeletonData g' this key atlasKey
       = (getAtlas g this atlasKey ≫= fun '(atlas, _) =>
            SkeletonJson_readSkeletonData (Runtime := RT) atlas document).
Proof.
  intros Hjson Hmemo. eexists. split; [|split].
  - apply load_binary.
  - cbn. by rewrite lookup_insert_eq.
  - rewrite getSkeletonData_fresh by done.
    rewrite (getAtlas_reads g) by done. cbn. by rewrite Hjson.
Qed.

End SkeletonJob.

(** ** Rendering *)
Section RenderingProperties.
Import Spine SpineGameObject Rendering.

Lemma ToInt32_small n : 0 <= n < 2 ^ 31 -> ToInt32 n = n.
Proof.
  intros Hn. unfold ToInt32. rewrite Z.mod_small; lia.
Qed.

Lemma land_pow2 n k :
  0 <= k -> Z.land n (2 ^ k) = if Z.testbit n k then 2 ^ k else 0.
Proof.
  intros Hk. apply Z.bits_inj'. intros i Hi.
  rewrite Z.land_spec.
  destruct (Z.eq_dec i k) as [->|Hne].
  - rewrite Z.pow2_bits_true by done.
    destruct (Z.testbit n k); [by rewrite Z.pow2_bits_true | by rewrite Z.bits_0].
  - rewrite Z.pow2_bits_false by lia. rewrite andb_false_r.
    destruct (Z.testbit n k); [by rewrite Z.pow2_bits_false by lia | by rewrite Z.bits_0].
Qed.

(** X17: what the camera test of [willRender] amounts to.  For a camera
    whose id is the single bit [k] and a camera filter that fits 31 bits, a
    visible object with a skeleton is rendered exactly when all four render
    flags are set and bit [k] of its camera filter is clear; a visible
    object without a skeleton is reported as rendered whatever its flags
    and filter say; an invisible one never is. *)
Theorem willRender_camera_bit {RT : Runtime} (this : GameObject)
    (fields : RenderFields) (k : Z) :
  0 <= cameraFilter fields < 2 ^ 31 ->
  0 <= k < 31 ->
  willRender this fields (2 ^ k)
  = visible fields
    && (match skeleton this with Some _ => false | None => true end
        || ((renderFlags fields =? 15)
            && negb (Z.testbit (cameraFilter fields) k))).
Proof.
  intros Hfilter Hk. unfold willRender, bitand.
  assert (Hid : 0 <= 2 ^ k < 2 ^ 31).
  { split; [lia|]. apply Z.pow_lt_mono_r; lia. }
  rewrite !ToInt32_small by done. rewrite land_pow2 by lia.
  destruct (visible fields); [|done]. cbn [negb andb].
  destruct (skeleton this); [|done]. cbn [orb].
  rewrite (Z.eqb_sym 15).
  destruct (renderFlags fields =? 15); [|done]. cbn [negb orb andb].
  destruct (Z.testbit (cameraFilter fields) k) eqn:Hbit.
  - assert (Hnz : cameraFilter fields <> 0) by (intros Hz; by rewrite Hz, Z.bits_0 in Hbit).
    apply Z.eqb_neq in Hnz. rewrite Hnz. cbn.
    assert (Hp : 2 ^ k <> 0) by lia. apply Z.eqb_neq in Hp. by rewrite Hp.
  - cbn. by rewrite andb_false_r.
Qed.

Lemma transformVertices_spec store transform stride (vs : list Vertex) :
  forall fuel pre tail,
    Forall (fun v => length (vertex_floats v) = stride) vs ->
    (length vs <= fuel)%nat ->
    transformVertices store fuel transform
      (length pre + stride * length vs) stride (length pre)
      (pre ++ concat (map vertex_floats vs) ++ tail)
    = Some (pre ++ concat (map vertex_floats (map (moved store transform) vs))
                ++ tail).
Proof.
  induction vs as [|v vs IH]; intros fuel pre tail Hall Hfuel.
  - cbn [length map concat app]. rewrite Nat.mul_0_r, Nat.add_0_r.
    destruct fuel; cbn [transformVertices]; by rewrite Nat.ltb_irrefl.
  - apply Forall_cons_1 in Hall as [Hv Hall].
    destruct v as [vx vy rest]. cbn in Hv.
    destruct fuel as [|fuel]; [cbn in Hfuel; lia|].
    cbn [transformVertices length].
    replace (length pre <? length pre + stride * S (length vs))%nat with true
      by (symmetry; apply Nat.ltb_lt; nia).
    cbn [map concat vertex_floats moved vertex_x vertex_y vertex_rest app].
    unfold readVertex.
    rewrite (list_lookup_middle pre _ vx (length pre)) by done.
    replace (pre ++ vx :: vy :: (rest ++ concat (map vertex_floats vs)) ++ tail)
      with ((pre ++ [vx]) ++ vy :: (rest ++ concat (map vertex_floats vs)) ++ tail)
      by (by rewrite <- app_assoc).
    rewrite (list_lookup_middle (pre ++ [vx]) _ vy (length pre + 1))
      by (rewrite length_app; cbn; lia).
    cbn [default from_option id].
    rewrite <- (app_assoc pre [vx]). cbn [app].
    rewrite (insert_app_r_alt pre _ (length pre)) by lia.
    rewrite Nat.sub_diag. cbn [insert list_insert].
    rewrite (insert_app_r_alt pre _ (length pre + 1)) by lia.
    replace (length pre + 1 - length pre)%nat with 1%nat by lia.
    cbn [insert list_insert].
    set (x' := store _). set (y' := store _).
    specialize (IH fuel (pre ++ x' :: y' :: rest) tail Hall).
    rewrite length_app in IH. cbn [length] in IH.
    replace (length pre + S (S (length rest)) + stride * length vs)%nat
      with (length pre + stride * S (length vs))%nat in IH by nia.
    replace (length pre + S (S (length rest)))%nat
      with (length pre + stride)%nat in IH by lia.
    rewrite <- !app_assoc in IH. cbn [app] in IH. rewrite <- !app_assoc.
    rewrite IH by (cbn in Hfuel; lia).
    reflexivity.
Qed.

(** X18: the vertex callback moves every vertex by the map of
    [skeletonToPhaserWorldCoordinates] and changes nothing else.  For an
    array that starts with vertices of [stride] numbers each and
    [numVertices] counting exactly their numbers, the first two numbers of
    every vertex become the stored image of its position, the other
    numbers of the vertex and everything after the vertices stay as they
    are. *)
Theorem transformVertices_moves_positions store transform stride
    (vs : list Vertex) (tail : list float) (fuel : nat) :
  Forall (fun v => length (vertex_floats v) = stride) vs ->
  (length vs <= fuel)%nat ->
  transformVertices store fuel transform (stride * length vs) stride 0
    (concat (map vertex_floats vs) ++ tail)
  = Some (concat (map vertex_floats (map (moved store transform) vs)) ++ tail).
Proof.
  intros Hall Hfuel.
  exact (transformVertices_spec store transform stride vs fuel [] tail Hall Hfuel).
Qed.

(** X19: a stride of zero never ends: with any number of vertices to go,
    the loop stays at its index, so no amount of fuel is enough. *)
Theorem transformVertices_zero_stride store transform numVertices i vertices fuel :
  (i < numVertices)%nat ->
  transformVertices store fuel transform numVertices 0 i vertices = None.
Proof.
  intros Hi. apply Nat.ltb_lt in Hi.
  revert vertices. induction fuel as [|fuel IH]; intros vertices.
  - cbn [transformVertices]. by rewrite Hi.
  - cbn [transformVertices]. rewrite Hi, Nat.add_0_r. apply IH.
Qed.

End RenderingProperties.

(** ** Bounds, size and the live pose *)
Section BoundsAndPose.
Import Spine SpineGameObject.
Context {RT : Runtime}.

(** X20: the bounds do not depend on the pose the object is in: two bound
    objects whose skeletons share their data and whose animation states
    share theirs get the same bounds from every provider. *)
Theorem calculateBounds_ignores_pose (fuel : nat) (provider : BoundsProvider)
    (this1 this2 : GameObject) skel1 skel2 state1 state2 :
  skeleton this1 = Some skel1 ->
  skeleton this2 = Some skel2 ->
  animationState this1 = Some state1 ->
  animationState this2 = Some state2 ->
  Skeleton_data skel1 = Skeleton_data skel2 ->
  AnimationState_data state1 = AnimationState_data state2 ->
  calculateBounds fuel provider this1 = calculateBounds fuel provider this2.
Proof.
  intros Hs1 Hs2 Ha1 Ha2 Hdata Hstate.
  destruct provider as [|animation skins timeStep];
    unfold calculateBounds, SetupPose_calculateBounds,
           SkinsAndAnimation_calculateBounds.
  - by rewrite Hs1, Hs2, Hdata.
  - by rewrite Hs1, Hs2, Ha1, Ha2, Hdata, Hstate.
Qed.

(** The bounds read nothing of the object but its skeleton and its
    animation state. *)
Lemma calculateBounds_fields fuel provider (this1 this2 : GameObject) :
  skeleton this1 = skeleton this2 ->
  animationState this1 = animationState this2 ->
  calculateBounds fuel provider this1 = calculateBounds fuel provider this2.
Proof.
  intros Hs Ha.
  destruct provider as [|animation skins timeStep];
    unfold calculateBounds, SetupPose_calculateBounds,
           SkinsAndAnimation_calculateBounds;
    by rewrite ?Hs, ?Ha.
Qed.

Lemma updateSize_fields fuel (this this' : GameObject) :
  updateSize fuel this = Some this' ->
  boundsProvider this' = boundsProvider this
  /\ skeleton this' = skeleton this
  /\ animationState this' = animationState this
  /\ animationStateData this' = animationStateData this
  /\ premultipliedAlpha this' = premultipliedAlpha this.
Proof.
  unfold updateSize. destruct (skeleton this) eqn:Hskel.
  - destruct (calculateBounds fuel (boundsProvider this) this); [|done].
    cbn. by intros [= <-].
  - by intros [= <-].
Qed.

(** X21: [updateSize] settles at once: the object it leaves is one a second
    call does not change, so the size never needs to be refreshed twice,
    and a refresh changes nothing but the four size fields. *)
Theorem updateSize_idempotent (fuel : nat) (this this' : GameObject) :
  updateSize fuel this = Some this' ->
  updateSize fuel this' = Some this'
  /\ skeleton this' = skeleton this
  /\ animationState this' = animationState this
  /\ boundsProvider this' = boundsProvider this.
Proof.
  intros Hfirst.
  destruct (updateSize_fields _ _ _ Hfirst) as (Hprov & Hskel & Hstate & Hdata & Hpma).
  split; [|done].
  unfold updateSize in *. rewrite Hskel.
  destruct (skeleton this) eqn:Hbound; [|done].
  rewrite Hprov, (calculateBounds_fields fuel _ this' this) by congruence.
  destruct (calculateBounds fuel (boundsProvider this) this) as [bounds|]; [|done].
  cbn in *. injection Hfirst as <-. reflexivity.
Qed.

(** With hooks that do nothing, a bound object goes through all of
    [updatePose]. *)
Lemma updatePose_default_hooks (delta : float) (this : GameObject) :
  is_Some (skeleton this) ->
  is_Some (animationState this) ->
  fst (updatePose defaultHooks delta this) = poseSteps delta
  /\ is_Some (snd (updatePose defaultHooks delta this)).
Proof.
  intros [skel Hskel] [state Hstate].
  assert (Hsome : is_Some (snd (updatePose defaultHooks delta this))).
  { destruct (AnimationState_apply
                (AnimationState_update state (delta / 1000)%float) skel)
      as [state1 skel1] eqn:Happly.
    rewrite (updatePose_result defaultHooks delta this state skel Hstate Hskel
               skel1); [by eexists|].
    cbn. by rewrite Happly. }
  split; [by apply updatePose_complete | done].
Qed.

(** X22: [preUpdate] guards [updatePose]: with the default hooks it never
    throws, on an object that lacks its skeleton or its animation state it
    does nothing at all, and on any other object it performs the five steps
    of [updatePose] in order. *)
Theorem preUpdate_guards_updatePose (time delta : float) (this : GameObject) :
  is_Some (snd (preUpdate defaultHooks time delta this))
  /\ fst (preUpdate defaultHooks time delta this)
     = match skeleton this, animationState this with
       | Some _, Some _ => poseSteps delta
       | _, _ => []
       end.
Proof.
  unfold preUpdate.
  destruct (skeleton this) as [skel|] eqn:Hskel;
    [destruct (animationState this) as [state|] eqn:Hstate|].
  - destruct (updatePose_default_hooks delta this) as [Htrace Hsome];
      [by rewrite Hskel | by rewrite Hstate | done].
  - split; [by eexists | done].
  - split; [by eexists | done].
Qed.

End BoundsAndPose.

(** ** Construction *)
Section ConstructionProperties.
Import Phaser Spine SpinePlugin SpineGameObject Rendering.
Context {RT : Runtime} {SD : StateDataRuntime}.

Lemma constructor_spec fuel g plugin dataKey atlasKey provider this plugin' :
  constructor fuel g plugin dataKey atlasKey provider = Some (this, plugin') ->
  exists skeletonData,
    getSkeletonData g plugin dataKey atlasKey = Some (skeletonData, plugin')
    /\ updateSize fuel
         (mkGameObject (default SetupPoseBoundsProvider provider)
            (default false (isAtlasPremultiplied g atlasKey))
            (Some (Skeleton_updateWorldTransform (Skeleton_new skeletonData)))
            (Some (AnimationStateData_new (Skeleton_data (Skeleton_new skeletonData))))
            (Some (AnimationState_new
                     (AnimationStateData_new
                        (Skeleton_data (Skeleton_new skeletonData)))))
            0 0 0 0)
       = Some this.
Proof.
  unfold constructor, createSkeleton.
  destruct (getSkeletonData g plugin dataKey atlasKey) as [[data plugin1]|]; [|done].
  cbn -[updateSize]. destruct (updateSize fuel _) as [sized|] eqn:Hsize; [|done].
  cbn. intros [= <- <-]. by exists data.
Qed.

(** X23: a constructed object is ready for the update loop.  Its skeleton
    is built from the data the plugin memoizes for the two keys, its
    animation state is bound, its size is settled, and the first
    [preUpdate] performs the five steps of [updatePose] without throwing. *)
Theorem constructor_ready fuel g plugin dataKey atlasKey provider this plugin'
    (time delta : float) :
  constructor fuel g plugin dataKey atlasKey provider = Some (this, plugin') ->
  (exists skeletonData,
     skeletonDataCache plugin' !! (dataKey +:+ atlasKey) = Some skeletonData
     /\ skeleton this
        = Some (Skeleton_updateWorldTransform (Skeleton_new skeletonData)))
  /\ is_Some (animationState this)
  /\ updateSize fuel this = Some this
  /\ fst (preUpdate defaultHooks time delta this) = poseSteps delta
  /\ is_Some (snd (preUpdate defaultHooks time delta this)).
Proof.
  intros Hnew.
  destruct (constructor_spec _ _ _ _ _ _ _ _ Hnew) as (data & Hdata & Hsize).
  destruct (updateSize_fields _ _ _ Hsize) as (_ & Hskel & Hstate & _).
  cbn in Hskel, Hstate.
  split; [|split; [|split]].
  - exists data. split; [|done].
    unfold getSkeletonData in Hdata.
    destruct (getAtlas g plugin atlasKey) as [[atlas plugin1]|]; [|done].
    cbn in Hdata.
    destruct (skeletonDataCache plugin1 !! (dataKey +:+ atlasKey)) eqn:Hmemo.
    + by injection Hdata as <- <-.
    + destruct (match cache_json g !! dataKey with Some _ => _ | None => _ end);
        [|done].
      cbn in Hdata. injection Hdata as <- <-. cbn. by rewrite lookup_insert_eq.
  - by rewrite Hstate.
  - unfold updateSize in Hsize |- *. cbn in Hsize. rewrite Hskel.
    match type of Hsize with
    | context [calculateBounds fuel ?p ?o] =>
        rewrite (calculateBounds_fields fuel (boundsProvider this) this o)
          by (by rewrite ?Hskel, ?Hstate);
        destruct (calculateBounds fuel p o) as [bounds|] eqn:Hbounds; [|done]
    end.
    cbn in Hsize. injection Hsize as <-. cbn. by rewrite Hbounds.
  - unfold preUpdate. rewrite Hskel, Hstate.
    apply updatePose_default_hooks; [by rewrite Hskel | by rewrite Hstate].
Qed.

(** X24: an atlas key that is neither in the text cache nor memoized by the
    plugin makes the constructor throw, although [isAtlasPremultiplied]
    answers [false] for it without complaint. *)
Theorem constructor_unknown_atlas fuel g plugin dataKey atlasKey provider :
  cache_text g !! atlasKey = None ->
  atlasCache plugin !! atlasKey = None ->
  isAtlasPremultiplied g atlasKey = Some false
  /\ constructor fuel g plugin dataKey atlasKey provider = None.
Proof.
  intros Htext Hmemo.
  unfold isAtlasPremultiplied, constructor, createSkeleton, getSkeletonData,
         getAtlas.
  by rewrite Htext, Hmemo.
Qed.

End ConstructionProperties.

(** ** Where page images are fetched from *)
Section PageUrls.
Import Phaser SpineAtlasFile.

(** The loop over the page names schedules nothing but page images of the
    names it is given. *)
Lemma addPageImages_origin textures :
  forall fileKey base loader this loader' this',
    fold_left (addPageImage fileKey base) textures (loader, this)
    = (loader', this') ->
    forall f, f ∈ queue loader' ->
      f ∈ queue loader
      \/ exists page, page ∈ textures /\ f = pageImage fileKey base page.
Proof.
  induction textures as [|page textures IH];
    intros fileKey base loader this loader' this' Hfold f Hf.
  - cbn in Hfold. injection Hfold as <- <-. by left.
  - cbn [fold_left] in Hfold. unfold addPageImage at 2 in Hfold.
    change (ImageFile (fileKey +:+ "!" +:+ page) (JS.match_plus base page))
      with (pageImage fileKey base page) in Hfold.
    destruct (negb (keyExists loader (pageImage fileKey base page))) eqn:Hfresh.
    + destruct (IH _ _ _ _ _ _ Hfold f Hf) as [Hold | (page' & Hpage' & ->)].
      * unfold addFile in Hold. apply negb_true_iff in Hfresh.
        rewrite Hfresh in Hold. cbn [queue] in Hold.
        apply elem_of_app in Hold as [Hold | ->%list_elem_of_singleton];
          [by left|].
        right. exists page. split; [apply list_elem_of_here | done].
      * right. exists page'. split; [by apply list_elem_of_further | done].
    + destruct (IH _ _ _ _ _ _ Hfold f Hf) as [Hold | (page' & Hpage' & ->)];
        [by left|].
      right. exists page'. split; [by apply list_elem_of_further | done].
Qed.

Lemma onFileComplete_origin loader this file data loader' this' f :
  file_data file = Text data ->
  onFileComplete loader this file = Some (loader', this') ->
  f ∈ queue loader' ->
  f ∉ queue loader ->
  exists page,
    page ∈ textures_of (JS.split_lines data)
    /\ f = pageImage (file_key file) (JS.match_base_path (file_src file)) page.
Proof.
  intros Hdata Hdone Hf Hnew. unfold onFileComplete in Hdone.
  destruct (bool_decide (file ∈ files this));
    [|by injection Hdone as <- _].
  destruct (String.eqb (file_type file) "text");
    [|by injection Hdone as <- _].
  rewrite Hdata in Hdone. injection Hdone as Hfold.
  destruct (fold_left _ _ _) as [l t] eqn:Hloop in Hfold.
  injection Hfold as -> ->.
  destruct (addPageImages_origin _ _ _ _ _ _ _ Hloop f Hf) as [Hold|Hpage];
    [done | exact Hpage].
Qed.

(** X25: page images are fetched from beside the atlas.  Whatever the atlas
    text holds, every task a completion adds to the loader's table is an
    image task of one of its page names, keyed [<atlasKey>!<page>], and for
    an atlas loaded from [dir/name] its URL is [dir/<page>]. *)
Theorem page_images_beside_atlas loader this file data dir name loader' this' f :
  file_data file = Text data ->
  file_src file = dir +:+ "/" +:+ name ->
  singleLine dir -> noSlash name ->
  onFileComplete loader this file = Some (loader', this') ->
  f ∈ queue loader' ->
  f ∉ queue loader ->
  exists page,
    page ∈ textures_of (JS.split_lines data)
    /\ f = ImageFile (imageKey (file_key file) page) (dir +:+ "/" +:+ page).
Proof.
  intros Hdata Hsrc Hdir Hname Hdone Hf Hnew.
  destruct (onFileComplete_origin _ _ _ _ _ _ _ Hdata Hdone Hf Hnew)
    as (page & Hpage & ->).
  exists page. split; [done|].
  rewrite Hsrc, match_base_path_last_slash by done.
  unfold pageImage, JS.match_plus. by rewrite string_app_assoc.
Qed.

(** X26: an atlas whose source has no slash gets no base path, and the
    missing match is concatenated as text: every page image it schedules is
    fetched from the page name prefixed with ["null"]. *)
Theorem page_images_without_directory loader this file data loader' this' f :
  file_data file = Text data ->
  noSlash (file_src file) ->
  onFileComplete loader this file = Some (loader', this') ->
  f ∈ queue loader' ->
  f ∉ queue loader ->
  exists page,
    page ∈ textures_of (JS.split_lines data)
    /\ f = ImageFile (imageKey (file_key file) page) ("null" +:+ page).
Proof.
  intros Hdata Hsrc Hdone Hf Hnew.
  destruct (onFileComplete_origin _ _ _ _ _ _ _ Hdata Hdone Hf Hnew)
    as (page & Hpage & ->).
  exists page. split; [done|].
  by rewrite (match_base_path_no_slash _ Hsrc).
Qed.

End PageUrls.

(** ** Atlas jobs of any number of pages *)
Section AtlasJobsInGeneral.
Import Phaser SpineAtlasFile Loading Tasks.

(** Whether a task counts as known depends on its type and key only. *)
Lemma keyExists_task_id l f g :
  task_id f = task_id g -> keyExists l f = keyExists l g.
Proof.
  intros Hid. unfold task_id in Hid. injection Hid as Htype Hkey.
  unfold keyExists, same_task. by rewrite Htype, Hkey.
Qed.

Lemma keyExists_app l added f :
  keyExists (mkLoader (game l) (queue l ++ added)) f
  = keyExists l f || existsb (same_task f) added.
Proof. unfold keyExists. cbn [queue]. apply existsb_app. Qed.

(** The loop over the page names: which tasks it adds.  Each is the image
    task of a page name, none of them was known to the loader, no two of
    them share a key, and every page name whose task was not known is among
    them. *)
Lemma addPageImages_added textures :
  forall fileKey base loader this,
  exists added,
    fold_left (addPageImage fileKey base) textures (loader, this)
    = (mkLoader (game loader) (queue loader ++ added),
       mk (key this) (files this ++ added)
          (pending this + Z.of_nat (length added)) (failed this)
          (match added with [] => complete this | _ => false end)
          (premultipliedAlpha this))
    /\ (forall f, f ∈ added ->
          exists page, page ∈ textures /\ f = pageImage fileKey base page)
    /\ NoDup (map file_key added)
    /\ (forall f, f ∈ added -> keyExists loader f = false)
    /\ (forall page, page ∈ textures ->
          keyExists loader (pageImage fileKey base page) = false ->
          pageImage fileKey base page ∈ added).
Proof.
  induction textures as [|page textures IH]; intros fileKey base loader this.
  - exists []. cbn [fold_left length]. rewrite !app_nil_r, Z.add_0_r.
    destruct loader, this.
    split; [done|]. split; [intros f Hf; by apply elem_of_nil in Hf|].
    split; [constructor|]. split; [intros f Hf; by apply elem_of_nil in Hf|].
    intros p Hp. by apply elem_of_nil in Hp.
  - cbn [fold_left]. unfold addPageImage at 2.
    change (ImageFile (fileKey +:+ "!" +:+ page) (JS.match_plus base page))
      with (pageImage fileKey base page).
    set (img := pageImage fileKey base page).
    destruct (keyExists loader img) eqn:Hknown; cbn [negb].
    + destruct (IH fileKey base loader this)
        as (added & -> & Horigin & Hnd & Hfresh & Hall).
      exists added. split; [done|]. split; [|split; [done|split; [done|]]].
      * intros f Hf. destruct (Horigin f Hf) as (p & Hp & ->).
        exists p. split; [by apply list_elem_of_further | done].
      * intros p [-> | Hp]%elem_of_cons Hfree; [|by apply Hall].
        fold img in Hfree. congruence.
    + unfold addFile. rewrite Hknown.
      destruct (IH fileKey base
                  (mkLoader (game loader) (queue loader ++ [img]))
                  (addToMultiFile this img))
        as (added & -> & Horigin & Hnd & Hfresh & Hall).
      exists (img :: added).
      cbn [game queue key files pending failed complete premultipliedAlpha
           addToMultiFile length].
      rewrite <- !app_assoc. cbn [app].
      split; [|split; [|split; [|split]]].
      * do 2 f_equal; [lia | by destruct added].
      * intros f [-> | Hf]%elem_of_cons.
        -- exists page. split; [apply list_elem_of_here | done].
        -- destruct (Horigin f Hf) as (p & Hp & ->).
           exists p. split; [by apply list_elem_of_further | done].
      * cbn [map]. constructor; [|exact Hnd].
        intros Hin. apply in_map_iff in Hin as (f & Hkey & Hf).
        apply list_elem_of_In in Hf.
        pose proof (Hfresh f Hf) as Hf_fresh.
        rewrite keyExists_app in Hf_fresh.
        apply orb_false_elim in Hf_fresh as [_ Hsame].
        cbn [existsb] in Hsame. rewrite orb_false_r in Hsame.
        destruct (Horigin f Hf) as (p & _ & ->).
        unfold img in *. rewrite same_task_pageImage in Hsame.
        cbn [pageImage ImageFile file_key] in Hkey.
        rewrite Hkey, String.eqb_refl in Hsame. discriminate.
      * intros f [-> | Hf]%elem_of_cons; [exact Hknown|].
        pose proof (Hfresh f Hf) as Hf_fresh.
        rewrite keyExists_app in Hf_fresh.
        by apply orb_false_elim in Hf_fresh as [? _].
      * intros p [-> | Hp]%elem_of_cons Hfree; [apply list_elem_of_here|].
        destruct (same_task (pageImage fileKey base p) img) eqn:Hsame.
        -- unfold img in Hsame. rewrite same_task_pageImage in Hsame.
           apply String.eqb_eq, imageKey_inj in Hsame. subst p.
           apply list_elem_of_here.
        -- apply list_elem_of_further, Hall; [done|].
           rewrite keyExists_app, Hfree. cbn [existsb orb].
           by rewrite Hsame.
Qed.

(** X4: a job never holds the same task twice.  If no two files of the job
    share type and key and every file of the job is in the loader's table,
    both still hold after a completion, whatever pages the atlas text
    names, also when it names a page twice. *)
Theorem onFileComplete_no_duplicates loader this file loader' this' :
  NoDup (map task_id (files this)) ->
  (forall f, f ∈ files this -> keyExists loader f = true) ->
  onFileComplete loader this file = Some (loader', this') ->
  NoDup (map task_id (files this'))
  /\ (forall f, f ∈ files this' -> keyExists loader' f = true).
Proof.
  intros Hnodup Hknown Hdone. unfold onFileComplete in Hdone.
  destruct (bool_decide (file ∈ files this));
    [|by injection Hdone as <- <-].
  destruct (String.eqb (file_type file) "text");
    [|by injection Hdone as <- <-].
  destruct (file_data file) as [|data| |]; try done.
  match type of Hdone with
  | Some (fold_left _ ?tex (?l, ?t)) = _ =>
      destruct (addPageImages_added tex (file_key file)
                  (JS.match_base_path (file_src file)) l t)
        as (added & Hfold & Horigin & Hkeys & Hfresh & _)
  end.
  rewrite Hfold in Hdone. injection Hdone as <- <-.
  cbn [files key pending failed complete premultipliedAlpha].
  split.
  - rewrite map_app. apply List.NoDup_app.
    + exact Hnodup.
    + apply (NoDup_map_inv snd). rewrite map_map. exact Hkeys.
    + intros id Hold Hnew.
      apply in_map_iff in Hold as (f & Hf_id & Hf).
      apply in_map_iff in Hnew as (g & Hg_id & Hg).
      apply list_elem_of_In in Hf, Hg.
      pose proof (Hknown f Hf) as Hf_known.
      rewrite (keyExists_task_id loader f g) in Hf_known by congruence.
      rewrite (Hfresh g Hg) in Hf_known. discriminate.
  - intros f [Hf | Hf]%elem_of_app; rewrite keyExists_app.
    + by rewrite (Hknown f Hf).
    + apply orb_true_iff. right. apply existsb_exists. exists f.
      split; [by apply list_elem_of_In|].
      unfold same_task. by rewrite !String.eqb_refl.
Qed.

End AtlasJobsInGeneral.

(** ** Two atlases that share a page image *)
Section SharedPages.
Import Phaser SpineAtlasFile Loading Tasks.

(** Every image task of the job arrives: each file gets its pixels and the
    pending count goes down by one per file. *)
Lemma completeImages_spec pixels images :
  forall n pre loader k p fl c a,
    Forall is_image images ->
    (length images <= n)%nat ->
    completeImages pixels n (length pre) (loader, mk k (pre ++ images) p fl c a)
    = Some (loader,
            mk k (pre ++ map (fun f => loaded (file_url f)
                                         (ImageData (pixels (file_url f))) f)
                             images)
               (p - Z.of_nat (length images)) fl c a).
Proof.
  induction images as [|f images IH]; intros n pre loader k p fl c a Himg Hn.
  - cbn [map length]. rewrite Z.sub_0_r.
    destruct n as [|n]; [done|]. cbn [completeImages snd files].
    rewrite app_nil_r, lookup_ge_None_2 by done. done.
  - apply Forall_cons_1 in Himg as [Hf Himg].
    destruct n as [|n]; [cbn in Hn; lia|].
    cbn [completeImages snd files].
    rewrite (list_lookup_middle pre images f (length pre)) by done.
    rewrite (completeFile_image_task _ _ (length pre) loader _ f);
      [|by apply list_lookup_middle | done].
    cbn [mbind option_bind key files pending failed complete premultipliedAlpha].
    rewrite (insert_app_r_alt pre _ (length pre)) by lia.
    rewrite Nat.sub_diag. cbn [insert list_insert].
    set (f' := loaded _ _ f).
    replace (pre ++ f' :: images) with ((pre ++ [f']) ++ images)
      by (by rewrite <- app_assoc).
    replace (S (length pre)) with (length (pre ++ [f']))
      by (rewrite length_app; cbn; lia).
    rewrite (IH n (pre ++ [f'])); [|done | cbn in Hn; lia].
    cbn [map length]. rewrite <- app_assoc. cbn [app].
    do 3 f_equal. lia.
Qed.

(** The pass of [addToCache] over image files: a key that no image of the
    job carries stays unregistered. *)
Lemma cacheFile_fold_frame pma files :
  forall g seen g' seen' k,
    fold_left (cacheFile pma) files (Some (g, seen)) = Some (g', seen') ->
    textures g !! k = None ->
    (forall f, f ∈ files -> is_image f -> file_key f <> k) ->
    textures g' !! k = None.
Proof.
  induction files as [|f0 files IH]; intros g seen g' seen' k Hfold Hnone Hother.
  - cbn in Hfold. by injection Hfold as <- <-.
  - cbn [fold_left] in Hfold.
    destruct (cacheFile pma (Some (g, seen)) f0) as [[g1 seen1]|] eqn:Hstep;
      [|by rewrite cacheFile_thrown in Hfold].
    apply (IH _ _ _ _ k Hfold).
    + unfold cacheFile in Hstep. cbn in Hstep.
      destruct (String.eqb (file_type f0) "image") eqn:Htype.
      * apply String.eqb_eq in Htype.
        destruct (textureManager_exists g (file_key f0));
          cbn in Hstep; injection Hstep as <- _; [done|].
        cbn. rewrite lookup_insert_ne; [done|].
        apply Hother; [apply list_elem_of_here | done].
      * destruct (resolve_premultipliedAlpha pma (file_data f0)); [|done].
        cbn in Hstep. by injection Hstep as <- _.
    + intros f Hf. apply Hother. by apply list_elem_of_further.
Qed.

(** In a key without ["!"] the first ["!"] of a composed image key marks
    where the atlas key ends. *)
Lemma imageKey_noBang key1 key2 page1 page2 :
  noBang key1 -> noBang key2 ->
  imageKey key1 page1 = imageKey key2 page2 -> key1 = key2.
Proof.
  unfold noBang, imageKey. revert key2.
  induction key1 as [|ch1 key1 IH]; intros [|ch2 key2] H1 H2 Heq.
  - done.
  - cbn in Heq. injection Heq as <- _. cbn in H2. discriminate.
  - cbn in Heq. injection Heq as -> _. cbn in H1. discriminate.
  - cbn [JS.all_chars] in H1, H2.
    apply andb_prop in H1 as [_ H1]. apply andb_prop in H2 as [_ H2].
    rewrite !string_app_cons in Heq. injection Heq as -> Heq.
    f_equal. by apply IH.
Qed.

(** A page the lines name is among the page names the handler collects. *)
Lemma namesPage_textures_of lines page :
  namesPage lines page -> page ∈ textures_of lines.
Proof.
  intros [[rest ->] | (first & pre & blank & post & Hblank & ->)];
    rewrite textures_of_pagesAfter.
  - apply list_elem_of_here.
  - apply list_elem_of_further. clear first.
    induction pre as [|line pre IH].
    + cbn [app pagesAfter]. rewrite Hblank. apply list_elem_of_here.
    + cbn [app pagesAfter].
      destruct (pre ++ blank :: page :: post) as [|next rest] eqn:Hrest;
        [by destruct pre|].
      destruct (JS.trim_is_empty line); [by apply list_elem_of_further | done].
Qed.


(** Loading an atlas, whatever its text: which image tasks the job adds to
    the loader's table and which textures the game holds afterwards. *)
Lemma loadAtlas_spec pixels loader atlasKey url pma text :
  let base := JS.match_base_path url in
  let pages := textures_of (JS.split_lines text) in
  exists added loader' this',
    loadAtlas pixels loader atlasKey url pma text = Some (loader', this')
    /\ queue loader' = queue (addFile loader (TextFile atlasKey url)) ++ added
    /\ (forall f, f ∈ added ->
          exists page, page ∈ pages /\ f = pageImage atlasKey base page)
    /\ (forall page, page ∈ pages ->
          keyExists loader (pageImage atlasKey base page) = false ->
          pageImage atlasKey base page ∈ added)
    /\ (forall k d, textures (game loader) !! k = Some d ->
                    textures (game loader') !! k = Some d)
    /\ (forall f, f ∈ added ->
          textures (game loader) !! file_key f = None ->
          textures (game loader') !! file_key f
          = Some (ImageData (pixels (file_url f))))
    /\ (forall k, textures (game loader) !! k = None ->
          (forall f, f ∈ added -> file_key f <> k) ->
          textures (game loader') !! k = None).
Proof.
  intros base pages.
  unfold loadAtlas, new. cbn [files fold_left].
  set (loader1 := addFile loader (TextFile atlasKey url)).
  assert (Hgame : game loader1 = game loader).
  { unfold loader1, addFile. by destruct (keyExists loader (TextFile atlasKey url)). }
  rewrite completeFile_text_task. fold base pages.
  match goal with
  | |- context [fold_left _ pages (loader1, ?t)] =>
      destruct (addPageImages_added pages atlasKey base loader1 t)
        as (added & -> & Horigin & Hkeys & Hfresh & Hall)
  end.
  cbn [mbind option_bind snd fst key files pending failed complete
       premultipliedAlpha app length].
  assert (Himages : Forall is_image added).
  { apply Forall_forall. intros f Hf%list_elem_of_In.
    by destruct (Horigin f Hf) as (p & _ & ->). }
  set (text' := mkFile "text" atlasKey url url (Text text)).
  change (text' :: added) with ([text'] ++ added).
  rewrite (completeImages_spec pixels added _ [text']); [|done | cbn; lia].
  cbn [mbind option_bind snd fst].
  set (arrive := fun f : File =>
                   loaded (file_url f) (ImageData (pixels (file_url f))) f).
  unfold addToCache, isReadyToProcess.
  cbn [pending failed complete premultipliedAlpha key game queue files].
  replace (1 - 1 + Z.of_nat (length added) - Z.of_nat (length added) =? 0)
    with true by (symmetry; apply Z.eqb_eq; lia).
  replace (negb match added with [] => false | _ :: _ => false end)
    with true by (by destruct added).
  cbn [andb Z.eqb app fold_left].
  unfold cacheFile at 2.
  cbn [mbind option_bind text' file_type String.eqb Ascii.eqb Bool.eqb file_data].
  rewrite resolve_premultipliedAlpha_text. cbn [mbind option_bind app].
  match goal with
  | |- context [fold_left _ _ (Some (?g, ?seen))] =>
      set (g1 := g); set (seen1 := seen)
  end.
  assert (Htex1 : textures g1 = textures (game loader)).
  { unfold g1. cbn. by rewrite Hgame. }
  assert (Harrived : Forall is_image (map arrive added)).
  { apply Forall_forall. intros f' Hf'. apply in_map_iff in Hf' as (f & <- & Hf).
    rewrite Forall_forall in Himages. exact (Himages f Hf). }
  destruct (cacheFile_images (default true pma) (map arrive added) g1 seen1 Harrived)
    as (g' & Hfold & _).
  rewrite Hfold. cbn [mbind option_bind].
  destruct (cacheFile_fold_spec _ _ _ _ _ _ Hfold)
    as (Hkeep & _ & Hexact & _ & _).
  exists added. eexists _, _. split; [reflexivity|].
  cbn [queue game]. split; [reflexivity|]. split; [exact Horigin|].
  split; [|split; [|split]].
  - intros page Hpage Hfree. apply Hall; [done|].
    unfold loader1. rewrite keyExists_addFile, Hfree.
    unfold pageImage. by rewrite same_task_image_text, andb_false_r.
  - intros k d Hk. apply Hkeep. by rewrite Htex1.
  - intros f Hf Hnone.
    assert (Hmap : map file_key (map arrive added) = map file_key added).
    { rewrite map_map. reflexivity. }
    change (textures g' !! file_key (arrive f) = Some (file_data (arrive f))).
    apply Hexact.
    + by rewrite Hmap.
    + apply list_elem_of_In, in_map. by apply list_elem_of_In.
    + change (is_image f). rewrite Forall_forall in Himages.
      apply Himages. by apply list_elem_of_In.
    + by rewrite Htex1.
  - intros k Hnone Hother.
    apply (cacheFile_fold_frame _ _ _ _ _ _ k Hfold); [by rewrite Htex1|].
    intros f' Hf' _. apply list_elem_of_In, in_map_iff in Hf' as (f & <- & Hf).
    apply (Hother f). by apply list_elem_of_In.
Qed.


(** C5 (as amended): two atlases with distinct keys, neither containing
    ["!"], whose texts both name the page [page], whatever other pages they
    name, are loaded one after the other into a loader that knows neither
    image of [page].  Then the two image keys [<atlasKey>!<page>] differ,
    each job has scheduled its own image task for [page] (neither is
    skipped because of the other), and both images are registered, each
    under its own key and with the pixels downloaded for its own atlas. *)
Theorem shared_page_image_keys
    (pixels : string -> string) (loader : Loader)
    (keyA keyB urlA urlB : string) (pmaA pmaB : option bool)
    (textA textB page : string) :
  keyA <> keyB ->
  noBang keyA -> noBang keyB ->
  namesPage (JS.split_lines textA) page ->
  namesPage (JS.split_lines textB) page ->
  let imageA := pageImage keyA (JS.match_base_path urlA) page in
  let imageB := pageImage keyB (JS.match_base_path urlB) page in
  keyExists loader imageA = false ->
  keyExists loader imageB = false ->
  textureManager_exists (game loader) (imageKey keyA page) = false ->
  textureManager_exists (game loader) (imageKey keyB page) = false ->
  imageKey keyA page <> imageKey keyB page
  /\ exists loaderA jobA loaderB jobB,
       loadAtlas pixels loader keyA urlA pmaA textA = Some (loaderA, jobA)
       /\ loadAtlas pixels loaderA keyB urlB pmaB textB = Some (loaderB, jobB)
       /\ imageA ∈ queue loaderB
       /\ imageB ∈ queue loaderB
       /\ textures (game loaderB) !! imageKey keyA page
          = Some (ImageData (pixels (file_url imageA)))
       /\ textures (game loaderB) !! imageKey keyB page
          = Some (ImageData (pixels (file_url imageB))).
Proof.
  intros Hne HbangA HbangB HpageA%namesPage_textures_of
         HpageB%namesPage_textures_of imageA imageB HfA HfB HtA HtB.
  assert (Hkeys : forall pageA pageB, imageKey keyA pageA <> imageKey keyB pageB).
  { intros pageA pageB Heq. apply Hne. by apply (imageKey_noBang _ _ pageA pageB). }
  assert (Hnone : forall g k, textureManager_exists g k = false ->
                              textures g !! k = None).
  { intros g k Hex. unfold textureManager_exists in Hex.
    apply bool_decide_eq_false_1 in Hex.
    destruct (textures g !! k) eqn:E; [|done]. exfalso. apply Hex. by eexists. }
  split; [apply Hkeys|].
  destruct (loadAtlas_spec pixels loader keyA urlA pmaA textA)
    as (addedA & loaderA & jobA & HloadA & HqueueA & HoriginA & HallA
        & HkeepA & HexactA & HframeA).
  assert (HinA : imageA ∈ addedA) by (by apply HallA).
  assert (HfreeB : keyExists loaderA imageB = false).
  { unfold keyExists. rewrite HqueueA, existsb_app.
    fold (keyExists (addFile loader (TextFile keyA urlA)) imageB).
    rewrite keyExists_addFile, HfB.
    change (same_task imageB (TextFile keyA urlA)) with false.
    rewrite andb_false_r. cbn [orb].
    destruct (existsb (same_task imageB) addedA) eqn:Hex; [|done].
    apply existsb_exists in Hex as (f & Hf%list_elem_of_In & Hsame).
    destruct (HoriginA f Hf) as (pageA & _ & ->).
    unfold imageB in Hsame. rewrite same_task_pageImage in Hsame.
    apply String.eqb_eq in Hsame. symmetry in Hsame. by apply Hkeys in Hsame. }
  assert (HnoneB : textures (game loaderA) !! imageKey keyB page = None).
  { apply HframeA; [by apply Hnone|].
    intros f Hf. destruct (HoriginA f Hf) as (pageA & _ & ->). apply Hkeys. }
  destruct (loadAtlas_spec pixels loaderA keyB urlB pmaB textB)
    as (addedB & loaderB & jobB & HloadB & HqueueB & HoriginB & HallB
        & HkeepB & HexactB & HframeB).
  assert (HinB : imageB ∈ addedB) by (by apply HallB).
  exists loaderA, jobA, loaderB, jobB.
  split; [exact HloadA|]. split; [exact HloadB|].
  split; [|split; [|split]].
  - rewrite HqueueB. apply elem_of_app. left.
    assert (Hold : imageA ∈ queue loaderA).
    { rewrite HqueueA. apply elem_of_app. by right. }
    unfold addFile. destruct (keyExists loaderA (TextFile keyB urlB)); [done|].
    cbn [queue]. apply elem_of_app. by left.
  - rewrite HqueueB. apply elem_of_app. by right.
  - apply HkeepB. apply (HexactA imageA HinA). by apply Hnone.
  - exact (HexactB imageB HinB HnoneB).
Qed.

End SharedPages.

(** ** The further properties on concrete inputs *)
Section AtlasJobExamples.
Import Phaser SpineAtlasFile Tasks.

Lemma heroJob_completes :
  onFileComplete emptyLoader (Demo.heroJob Demo.twoPagePayload)
                 (Demo.heroText Demo.twoPagePayload)
  = Some (DemoMore.pagedLoader, DemoMore.pagedJob).
Proof. vm_compute. reflexivity. Qed.

Lemma bareJob_completes :
  onFileComplete emptyLoader DemoMore.bareJob DemoMore.bareText
  = Some (mkLoader emptyGame [DemoMore.barePage1; DemoMore.barePage2],
          mk "hero" [DemoMore.bareText; DemoMore.barePage1; DemoMore.barePage2]
             2 0 false true).
Proof. vm_compute. reflexivity. Qed.

Lemma twoPagePayload_pages :
  textures_of (JS.split_lines Demo.twoPagePayload)
  = ["page1.png"; "page2.png"]%string.
Proof. vm_compute. reflexivity. Qed.

Lemma onFileComplete_appends_witness :
  exists added,
    queue DemoMore.pagedLoader = queue emptyLoader ++ added
    /\ files DemoMore.pagedJob = files (Demo.heroJob Demo.twoPagePayload) ++ added
    /\ Forall is_image added
    /\ game DemoMore.pagedLoader = game emptyLoader
    /\ pending DemoMore.pagedJob
       = pending (Demo.heroJob Demo.twoPagePayload) - 1 + Z.of_nat (length added)
    /\ failed DemoMore.pagedJob = failed (Demo.heroJob Demo.twoPagePayload)
    /\ premultipliedAlpha DemoMore.pagedJob
       = premultipliedAlpha (Demo.heroJob Demo.twoPagePayload).
Proof.
  apply (onFileComplete_appends emptyLoader (Demo.heroJob Demo.twoPagePayload)
           (Demo.heroText Demo.twoPagePayload)).
  - apply list_elem_of_here.
  - exact heroJob_completes.
Defined.

Lemma onFileComplete_pages_known_witness :
  keyExists DemoMore.pagedLoader
    (ImageFile (imageKey "hero" "page2.png")
               (JS.match_plus (JS.match_base_path "assets/spine/hero.atlas")
                              "page2.png"))
  = true.
Proof.
  apply (onFileComplete_pages_known emptyLoader
           (Demo.heroJob Demo.twoPagePayload)
           (Demo.heroText Demo.twoPagePayload) Demo.twoPagePayload
           DemoMore.pagedLoader DemoMore.pagedJob "page2.png").
  - apply list_elem_of_here.
  - reflexivity.
  - reflexivity.
  - exact heroJob_completes.
  - rewrite twoPagePayload_pages. apply list_elem_of_further, list_elem_of_here.
Defined.

Lemma onFileComplete_blocks_install_witness :
  addToCache DemoMore.pagedLoader DemoMore.pagedJob
  = Some (DemoMore.pagedLoader, DemoMore.pagedJob).
Proof.
  apply (onFileComplete_blocks_install emptyLoader
           (Demo.heroJob Demo.twoPagePayload)
           (Demo.heroText Demo.twoPagePayload)).
  - apply list_elem_of_here.
  - simpl. lia.
  - exact heroJob_completes.
  - simpl. discriminate.
Defined.

Lemma page_images_beside_atlas_witness :
  exists page,
    page ∈ textures_of (JS.split_lines Demo.twoPagePayload)
    /\ DemoMore.page2
       = ImageFile (imageKey "hero" page) ("assets/spine" +:+ "/" +:+ page).
Proof.
  apply (page_images_beside_atlas emptyLoader
           (Demo.heroJob Demo.twoPagePayload)
           (Demo.heroText Demo.twoPagePayload) Demo.twoPagePayload
           "assets/spine" "hero.atlas" DemoMore.pagedLoader DemoMore.pagedJob
           DemoMore.page2).
  - reflexivity.
  - reflexivity.
  - reflexivity.
  - reflexivity.
  - exact heroJob_completes.
  - apply list_elem_of_further, list_elem_of_here.
  - apply not_elem_of_nil.
Defined.

Lemma page_images_without_directory_witness :
  exists page,
    page ∈ textures_of (JS.split_lines Demo.twoPagePayload)
    /\ DemoMore.barePage1 = ImageFile (imageKey "hero" page) ("null" +:+ page).
Proof.
  apply (page_images_without_directory emptyLoader DemoMore.bareJob
           DemoMore.bareText Demo.twoPagePayload
           (mkLoader emptyGame [DemoMore.barePage1; DemoMore.barePage2])
           (mk "hero" [DemoMore.bareText; DemoMore.barePage1; DemoMore.barePage2]
               2 0 false true)
           DemoMore.barePage1).
  - reflexivity.
  - reflexivity.
  - exact bareJob_completes.
  - apply list_elem_of_here.
  - apply not_elem_of_nil.
Defined.

End AtlasJobExamples.

Section AtlasInstallExamples.
Import Phaser SpineAtlasFile.

Lemma readyJob_installs :
  is_Some (addToCache DemoMore.texturedLoader DemoMore.readyJob).
Proof.
  assert (Hsome : (match addToCache DemoMore.texturedLoader DemoMore.readyJob
                   with Some _ => true | None => false end) = true)
    by (vm_compute; reflexivity).
  destruct (addToCache DemoMore.texturedLoader DemoMore.readyJob); [by eexists|done].
Qed.


Lemma addToCache_registers_images_witness :
  exists loader' this',
    addToCache DemoMore.texturedLoader DemoMore.readyJob = Some (loader', this')
    /\ textureManager_exists (game loader')
         (file_key (DemoMore.arrived DemoMore.page2)) = true.
Proof.
  destruct readyJob_installs as [[loader' this'] Hdone].
  exists loader', this'. split; [exact Hdone|].
  apply (addToCache_registers_images DemoMore.texturedLoader DemoMore.readyJob
           loader' this' (DemoMore.arrived DemoMore.page2)).
  - reflexivity.
  - exact Hdone.
  - apply list_elem_of_further, list_elem_of_further, list_elem_of_here.
  - reflexivity.
Defined.

Lemma addToCache_getSourceImage_witness :
  exists loader' this',
    addToCache DemoMore.texturedLoader DemoMore.readyJob = Some (loader', this')
    /\ SpinePlugin.getSourceImage (game loader')
         (file_key (DemoMore.arrived DemoMore.page2))
       = file_data (DemoMore.arrived DemoMore.page2).
Proof.
  destruct readyJob_installs as [[loader' this'] Hdone].
  exists loader', this'. split; [exact Hdone|].
  apply (addToCache_getSourceImage DemoMore.texturedLoader DemoMore.readyJob
           loader' this' (DemoMore.arrived DemoMore.page2)).
  - reflexivity.
  - exact Hdone.
  - simpl. repeat constructor; simpl; intros Hin;
      repeat (destruct Hin as [Hin|Hin]; [discriminate Hin|]); exact Hin.
  - apply list_elem_of_further, list_elem_of_further, list_elem_of_here.
  - reflexivity.
  - vm_compute. reflexivity.
Defined.

End AtlasInstallExamples.

Section PluginExamples.
Import Phaser Spine SpinePlugin SpineSkeletonDataFile.

Lemma heroAtlas_parses :
  is_Some (getAtlas (RT := Demo.runtime) DemoMore.heroGame Demo.freshPlugin "hero").
Proof.
  apply (getAtlas_is_Some (RT := Demo.runtime) DemoMore.heroGame Demo.freshPlugin
           "hero" "hero.png" false).
  - vm_compute. reflexivity.
  - vm_compute. eauto.
Qed.

Lemma heroData_parses :
  is_Some (getSkeletonData (RT := Demo.runtime) DemoMore.heroGame
             Demo.freshPlugin "hero-data" "hero").
Proof.
  assert (Hsome : (match getSkeletonData (RT := Demo.runtime) DemoMore.heroGame
                        Demo.freshPlugin "hero-data" "hero"
                   with Some _ => true | None => false end) = true)
    by (vm_compute; reflexivity).
  destruct (getSkeletonData (RT := Demo.runtime) DemoMore.heroGame
              Demo.freshPlugin "hero-data" "hero"); [by eexists|done].
Qed.

Lemma getAtlas_memo_witness :
  exists atlas this',
    getAtlas (RT := Demo.runtime) DemoMore.heroGame Demo.freshPlugin "hero"
    = Some (atlas, this')
    /\ getAtlas emptyGame this' "hero" = Some (atlas, this').
Proof.
  destruct heroAtlas_parses as [[atlas this'] Hfirst].
  exists atlas, this'. split; [exact Hfirst|].
  apply (getAtlas_memo (RT := Demo.runtime) DemoMore.heroGame emptyGame
           Demo.freshPlugin "hero" atlas this').
  exact Hfirst.
Defined.

Lemma getSkeletonData_memo_witness :
  exists skeletonData this',
    getSkeletonData (RT := Demo.runtime) DemoMore.heroGame Demo.freshPlugin
                    "hero-data" "hero"
    = Some (skeletonData, this')
    /\ getSkeletonData emptyGame this' "hero-data" "hero"
       = Some (skeletonData, this')
    /\ createSkeleton emptyGame this' "hero-data" "hero"
       = Some (Skeleton_new skeletonData, this').
Proof.
  destruct heroData_parses as [[skeletonData this'] Hfirst].
  exists skeletonData, this'. split; [exact Hfirst|].
  apply (getSkeletonData_memo (RT := Demo.runtime) DemoMore.heroGame emptyGame
           Demo.freshPlugin "hero-data" "hero" skeletonData this').
  exact Hfirst.
Defined.

Lemma getSkeletonData_keeps_memos_witness :
  exists skeletonData this',
    getSkeletonData (RT := Demo.runtime) DemoMore.heroGame Demo.freshPlugin
                    "hero-data" "hero"
    = Some (skeletonData, this')
    /\ (forall k v, atlasCache Demo.freshPlugin !! k = Some v ->
                    atlasCache this' !! k = Some v)
    /\ (forall k v, skeletonDataCache Demo.freshPlugin !! k = Some v ->
                    skeletonDataCache this' !! k = Some v).
Proof.
  destruct heroData_parses as [[skeletonData this'] Hfirst].
  exists skeletonData, this'. split; [exact Hfirst|].
  apply (getSkeletonData_keeps_memos (RT := Demo.runtime) DemoMore.heroGame
           Demo.freshPlugin "hero-data" "hero" skeletonData this').
  exact Hfirst.
Defined.

Lemma getSkeletonData_missing_data_witness :
  exists atlas this1,
    getAtlas (RT := Demo.runtime) DemoMore.heroGame Demo.freshPlugin "hero"
    = Some (atlas, this1)
    /\ fst <$> getSkeletonData DemoMore.heroGame Demo.freshPlugin "nothing" "hero"
       = SkeletonBinary_readSkeletonData atlas [].
Proof.
  destruct heroAtlas_parses as [[atlas this1] Hatlas].
  exists atlas, this1. split; [exact Hatlas|].
  apply (getSkeletonData_missing_data (RT := Demo.runtime) DemoMore.heroGame
           Demo.freshPlugin "nothing" "hero" atlas this1).
  - exact Hatlas.
  - reflexivity.
  - vm_compute. reflexivity.
  - reflexivity.
Defined.

Lemma skeleton_json_job_is_parsed_witness :
  exists g',
    load DemoMore.heroGame (Config "hero-rig" "hero.json" "spineJson")
         (mkResponse "rig two" [Byte.x01])
    = Some g'
    /\ fst <$> getSkeletonData (RT := Demo.runtime) g' Demo.freshPlugin
                 "hero-rig" "hero"
       = (getAtlas DemoMore.heroGame Demo.freshPlugin "hero" ≫= fun '(atlas, _) =>
            SkeletonJson_readSkeletonData (Runtime := Demo.runtime) atlas
              (responseText (mkResponse "rig two" [Byte.x01]))).
Proof.
  apply (skeleton_json_job_is_parsed (RT := Demo.runtime) DemoMore.heroGame
           Demo.freshPlugin (Config "hero-rig" "hero.json" "spineJson")
           "hero-rig" "hero.json" "hero" (mkResponse "rig two" [Byte.x01])).
  - right. reflexivity.
  - reflexivity.
Defined.

Lemma skeleton_binary_job_is_parsed_witness :
  exists g',
    load DemoMore.heroGame (Config "hero-rig" "hero.skel" "spineBinary")
         (mkResponse "rig two" [Byte.x01])
    = Some g'
    /\ fst <$> getSkeletonData (RT := Demo.runtime) g' Demo.freshPlugin
                 "hero-rig" "hero"
       = (getAtlas DemoMore.heroGame Demo.freshPlugin "hero" ≫= fun '(atlas, _) =>
            SkeletonBinary_readSkeletonData (Runtime := Demo.runtime) atlas
              (response (mkResponse "rig two" [Byte.x01]))).
Proof.
  apply (skeleton_binary_job_is_parsed (RT := Demo.runtime) DemoMore.heroGame
           Demo.freshPlugin (Config "hero-rig" "hero.skel" "spineBinary")
           "hero-rig" "hero.skel" "spineBinary" "hero"
           (mkResponse "rig two" [Byte.x01])).
  - right. split; [reflexivity | discriminate].
  - reflexivity.
  - vm_compute. reflexivity.
Defined.

Lemma json_entry_shadows_binary_witness :
  exists g',
    load DemoMore.heroGame (Positional "hero-data" "hero.skel" binary)
         (mkResponse "unused" [Byte.x01])
    = Some g'
    /\ cache_binary g' !! "hero-data"%string
       = Some (response (mkResponse "unused" [Byte.x01]))
    /\ fst <$> getSkeletonData (RT := Demo.runtime) g' Demo.freshPlugin
                 "hero-data" "hero"
       = (getAtlas DemoMore.heroGame Demo.freshPlugin "hero" ≫= fun '(atlas, _) =>
            SkeletonJson_readSkeletonData (Runtime := Demo.runtime) atlas
              "rig of hero").
Proof.
  apply (json_entry_shadows_binary (RT := Demo.runtime) DemoMore.heroGame
           Demo.freshPlugin "hero-data" "hero.skel" "hero" "rig of hero"
           (mkResponse "unused" [Byte.x01])).
  - vm_compute. reflexivity.
  - reflexivity.
Defined.

End PluginExamples.

Section RenderingExamples.
Import Spine SpineGameObject Rendering.

(** A visible object with all render flags set, filtered from the cameras
    with ids 1 and 4, asked by the camera with id 4. *)
Lemma willRender_camera_bit_witness :
  willRender (RT := Demo.runtime) Demo.liveObject (mkRenderFields true 15 5)
             (2 ^ 2)
  = visible (mkRenderFields true 15 5)
    && (match skeleton Demo.liveObject with Some _ => false | None => true end
        || ((renderFlags (mkRenderFields true 15 5) =? 15)
            && negb (Z.testbit (cameraFilter (mkRenderFields true 15 5)) 2))).
Proof.
  apply (willRender_camera_bit (RT := Demo.runtime) Demo.liveObject
           (mkRenderFields true 15 5) 2).
  - simpl. lia.
  - lia.
Defined.

(** Two vertices of four numbers, scaled by two and moved by [(10, 20)]. *)
Lemma transformVertices_moves_positions_witness :
  transformVertices (fun v => v) 2 (mkMatrix 2 0 0 2 10 20)%float
    (4 * length DemoMore.quad) 4 0
    (concat (map vertex_floats DemoMore.quad) ++ [9%float])
  = Some (concat (map vertex_floats
                    (map (moved (fun v => v) (mkMatrix 2 0 0 2 10 20)%float)
                         DemoMore.quad))
          ++ [9%float]).
Proof.
  apply (transformVertices_moves_positions (fun v => v) (mkMatrix 2 0 0 2 10 20)%float
           4 DemoMore.quad [9%float] 2).
  - repeat constructor.
  - simpl. lia.
Defined.

Lemma transformVertices_zero_stride_witness :
  transformVertices (fun v => v) 100 (mkMatrix 2 0 0 2 10 20)%float 4 0 0
    [1; 2; 3; 4]%float
  = None.
Proof.
  apply (transformVertices_zero_stride (fun v => v) (mkMatrix 2 0 0 2 10 20)%float
           4 0 [1; 2; 3; 4]%float 100).
  lia.
Defined.

End RenderingExamples.

Section BoundsAndPoseExamples.
Import Spine SpineGameObject.

(** The walking rig in mid-stride and at rest. *)
Lemma calculateBounds_ignores_pose_witness :
  calculateBounds (RT := Demo.runtime) 10
    (SkinsAndAnimationBoundsProvider (Some "walk"%string) [] 0.05)
    Demo.liveObject
  = calculateBounds 10
      (SkinsAndAnimationBoundsProvider (Some "walk"%string) [] 0.05)
      DemoMore.restObject.
Proof.
  apply (calculateBounds_ignores_pose (RT := Demo.runtime) 10
           (SkinsAndAnimationBoundsProvider (Some "walk"%string) [] 0.05)
           Demo.liveObject DemoMore.restObject
           (Demo.mkSkel (Demo.rigData "hero") 0.3 [] 0.3)
           (Demo.mkSkel (Demo.rigData "hero") 0 [] 0)
           (Demo.mkState (Demo.rigData "hero") (Some ("walk"%string, 0.12%float)) 0.3)
           (Demo.mkState (Demo.rigData "hero") None 0));
    reflexivity.
Defined.

Lemma updateSize_idempotent_witness :
  exists this',
    updateSize (RT := Demo.runtime) 0 Demo.liveObject = Some this'
    /\ updateSize 0 this' = Some this'
    /\ skeleton this' = skeleton Demo.liveObject
    /\ animationState this' = animationState Demo.liveObject
    /\ boundsProvider this' = boundsProvider Demo.liveObject.
Proof.
  eexists. split; [reflexivity|].
  apply (updateSize_idempotent (RT := Demo.runtime) 0 Demo.liveObject).
  reflexivity.
Defined.

End BoundsAndPoseExamples.

Section ConstructionExamples.
Import Phaser Spine SpinePlugin SpineGameObject Rendering.

Lemma hero_is_constructed :
  is_Some (constructor (RT := Demo.runtime) 0 DemoMore.heroGame Demo.freshPlugin
             "hero-data" "hero" None).
Proof.
  assert (Hsome : (match constructor (RT := Demo.runtime) 0 DemoMore.heroGame
                           Demo.freshPlugin "hero-data" "hero" None
                   with Some _ => true | None => false end) = true)
    by (vm_compute; reflexivity).
  destruct (constructor (RT := Demo.runtime) 0 DemoMore.heroGame
              Demo.freshPlugin "hero-data" "hero" None); [by eexists|done].
Qed.

Lemma constructor_ready_witness :
  exists this plugin',
    constructor (RT := Demo.runtime) 0 DemoMore.heroGame Demo.freshPlugin
                "hero-data" "hero" None
    = Some (this, plugin')
    /\ (exists skeletonData,
          skeletonDataCache plugin' !! ("hero-data" +:+ "hero") = Some skeletonData
          /\ skeleton this
             = Some (Skeleton_updateWorldTransform (Skeleton_new skeletonData)))
    /\ is_Some (animationState this)
    /\ updateSize 0 this = Some this
    /\ fst (preUpdate defaultHooks 0 16 this) = poseSteps 16
    /\ is_Some (snd (preUpdate defaultHooks 0 16 this)).
Proof.
  destruct hero_is_constructed as [[this plugin'] Hnew].
  exists this, plugin'. split; [exact Hnew|].
  apply (constructor_ready (RT := Demo.runtime) 0 DemoMore.heroGame
           Demo.freshPlugin "hero-data" "hero" None this plugin' 0 16).
  exact Hnew.
Defined.

Lemma constructor_unknown_atlas_witness :
  isAtlasPremultiplied emptyGame "hero" = Some false
  /\ constructor (RT := Demo.runtime) 0 emptyGame Demo.freshPlugin
                 "hero-data" "hero" None
     = None.
Proof.
  apply (constructor_unknown_atlas (RT := Demo.runtime) 0 emptyGame
           Demo.freshPlugin "hero-data" "hero" None);
    reflexivity.
Defined.

End ConstructionExamples.

Section SharedPagesExamples.
Import Phaser SpineAtlasFile Loading Tasks.

(** Two atlases of two pages each, sharing their second page. *)
Lemma shared_page_image_keys_witness :
  imageKey "heroA" "page2.png" <> imageKey "heroB" "page2.png"
  /\ exists loaderA jobA loaderB jobB,
       loadAtlas Demo.pixels emptyLoader "heroA" "a/heroA.atlas" None
                 Demo.twoPagePayload
       = Some (loaderA, jobA)
       /\ loadAtlas Demo.pixels loaderA "heroB" "b/heroB.atlas" None
                    Demo.twoPagePayload
          = Some (loaderB, jobB)
       /\ pageImage "heroA" (JS.match_base_path "a/heroA.atlas") "page2.png"
          ∈ queue loaderB
       /\ pageImage "heroB" (JS.match_base_path "b/heroB.atlas") "page2.png"
          ∈ queue loaderB
       /\ textures (game loaderB) !! imageKey "heroA" "page2.png"
          = Some (ImageData
                    (Demo.pixels
                       (file_url (pageImage "heroA"
                                    (JS.match_base_path "a/heroA.atlas")
                                    "page2.png"))))
       /\ textures (game loaderB) !! imageKey "heroB" "page2.png"
          = Some (ImageData
                    (Demo.pixels
                       (file_url (pageImage "heroB"
                                    (JS.match_base_path "b/heroB.atlas")
                                    "page2.png")))).
Proof.
  apply (shared_page_image_keys Demo.pixels emptyLoader "heroA" "heroB"
           "a/heroA.atlas" "b/heroB.atlas" None None
           Demo.twoPagePayload Demo.twoPagePayload "page2.png").
  - discriminate.
  - reflexivity.
  - reflexivity.
  - right. exists "page1.png"%string, ["size:100,100"; "..."]%string,
      EmptyString, ["..."]%string.
    split; reflexivity.
  - right. exists "page1.png"%string, ["size:100,100"; "..."]%string,
      EmptyString, ["..."]%string.
    split; reflexivity.
  - reflexivity.
  - reflexivity.
  - reflexivity.
  - reflexivity.
Defined.

(** The pixels the two atlases of the example end up with. *)
Lemma shared_page_pixels :
  (loadAtlas Demo.pixels emptyLoader "heroA" "a/heroA.atlas" None
             Demo.twoPagePayload ≫= fun stA =>
   loadAtlas Demo.pixels (fst stA) "heroB" "b/heroB.atlas" None
             Demo.twoPagePayload ≫= fun stB =>
   Some (textures (game (fst stB)) !! "heroA!page2.png"%string,
         textures (game (fst stB)) !! "heroB!page2.png"%string))
  = Some (Some (ImageData "pixels of a/page2.png"),
          Some (ImageData "pixels of b/page2.png")).
Proof. vm_compute. reflexivity. Qed.

(** C5 (counterexample): the atlas ["a"] names the pages ["c.png"] and
    ["b!c.png"], the atlas ["a!b"] names the page ["c.png"]; the keys are
    distinct and both atlases name ["c.png"].  The image key of ["c.png"]
    in ["a!b"] is ["a!b!c.png"], which is the image key of ["b!c.png"] in
    ["a"]: loaded second, ["a!b"] schedules no image task at all, and the
    texture under its key holds the pixels of the other atlas's other
    page. *)
Lemma shared_page_is_skipped :
  "a"%string <> "a!b"%string
  /\ namesPage (JS.split_lines DemoMore.bangPayload) "c.png"
  /\ namesPage (JS.split_lines DemoMore.plainPayload) "c.png"
  /\ (loadAtlas Demo.pixels emptyLoader "a" "x/a.atlas" None
                DemoMore.bangPayload ≫= fun stA =>
      loadAtlas Demo.pixels (fst stA) "a!b" "y/ab.atlas" None
                DemoMore.plainPayload ≫= fun stB =>
      Some (map (fun f => (file_key f, file_url f)) (queue (fst stB)),
            textures (game (fst stB)) !! imageKey "a!b" "c.png"))
     = Some ([("a", "x/a.atlas"); ("a!c.png", "x/c.png");
              ("a!b!c.png", "x/b!c.png"); ("a!b", "y/ab.atlas")]%string,
             Some (ImageData "pixels of x/b!c.png")).
Proof.
  split; [discriminate|]. split; [|split].
  - left. eexists. reflexivity.
  - left. eexists. reflexivity.
  - vm_compute. reflexivity.
Qed.

End SharedPagesExamples.

Section AtlasJobsInGeneralExamples.
Import Phaser SpineAtlasFile Loading Tasks.

(** An atlas text that names its only page twice: the job gets one image
    task. *)
Lemma onFileComplete_no_duplicates_witness :
  NoDup (map task_id [DemoMore.repeatedText; DemoMore.page1])
  /\ (forall f, f ∈ [DemoMore.repeatedText; DemoMore.page1] ->
        keyExists (mkLoader emptyGame [DemoMore.repeatedText; DemoMore.page1]) f
        = true).
Proof.
  apply (onFileComplete_no_duplicates
           (mkLoader emptyGame [DemoMore.repeatedText])
           DemoMore.repeatedJob DemoMore.repeatedText
           (mkLoader emptyGame [DemoMore.repeatedText; DemoMore.page1])
           (mk "hero" [DemoMore.repeatedText; DemoMore.page1] 1 0 false true)).
  - constructor; [intros [] | constructor].
  - intros f Hf. apply list_elem_of_singleton in Hf. subst f. reflexivity.
  - vm_compute. reflexivity.
Defined.

End AtlasJobsInGeneralExamples.
